(** * Insurance policy optimizer

    A shallow embedding of the recommendation engine, the risk scorer, the
    input validator (utils.py), the premium estimator (agent.py) and the
    submit handler of the dashboard (app.py), with the properties the
    specification states about them.

    Conventions of the embedding:
    - a Python [int] is a [Z]; a Python [float] is an IEEE binary64 value,
      written as a [spec_float] with precision 53 and maximal exponent 1024,
      and every arithmetic operation rounds to nearest-even as the hardware
      does;
    - a Python [str] is the [string] of the bytes of its UTF-8 encoding;
      [len] counts characters (code points) and [strip] removes the
      whitespace of Unicode, as [str.isspace] has it; an integer column of
      a frame holds 64-bit integers and its arithmetic wraps around;
    - a literal [dict] is a [gmap] with its [get(key, default)];
    - a pandas [DataFrame] is the list of its rows, in row order; a boolean
      mask selection is [List.filter];
    - a raised exception is the [Raise] branch of [result]. *)

From Stdlib Require Import ZArith List String Ascii Bool Lia.
From Stdlib Require Import Sorting.Sorted Sorting.Permutation.
From Stdlib Require Import Floats.SpecFloat.
From Stdlib Require Import DecimalString DecimalN.
From stdpp Require Import gmap strings.

Import ListNotations.
Local Open Scope string_scope.
Local Open Scope Z_scope.

(** ** Exceptions *)

Inductive exn : Type :=
| TypeError
| ValueError
| OverflowError
| IndexError.

Inductive result (A : Type) : Type :=
| Ok (a : A)
| Raise (e : exn).

Arguments Ok {A} a.
Arguments Raise {A} e.

(** Sequencing stops at the first exception. *)
#[global] Instance result_ret : MRet result := fun _ a => Ok a.
#[global] Instance result_bind : MBind result := fun _ _ k r =>
  match r with
  | Ok a => k a
  | Raise e => Raise e
  end.

(** ** Binary64 arithmetic, as Python's [float] *)

Module PyFloat.

Definition prec : Z := 53.
Definition emax : Z := 1024.

Abbreviation float := spec_float.

(** [float(z)] for an [int] that is in range: the nearest double. *)
Definition of_int (z : Z) : float := binary_normalize prec emax z 0 false.

Definition add : float -> float -> float := SFadd prec emax.
Definition mul : float -> float -> float := SFmul prec emax.
Definition div : float -> float -> float := SFdiv prec emax.
Definition ltb : float -> float -> bool := SFltb.
Definition leb : float -> float -> bool := SFleb.
Definition eqb : float -> float -> bool := SFeqb.

Definition is_nan (x : float) : bool :=
  match x with S754_nan => true | _ => false end.

Definition is_inf (x : float) : bool :=
  match x with S754_infinity _ => true | _ => false end.

(** The double a decimal literal denotes: [lit 13 10] is [1.3]. Both
    arguments are small integers, exact as doubles, and the division is
    correctly rounded, so the quotient is the double nearest the decimal. *)
Definition lit (n d : Z) : float := div (of_int n) (of_int d).

(** [int * float], [int < float]: the [int] operand is converted first;
    the conversion raises when the integer is beyond the doubles. *)
Definition float_of_int (z : Z) : result float :=
  let f := of_int z in
  if is_inf f then Raise OverflowError else Ok f.

(** Nearest integer to [n / d], ties to the even one ([0 < d]). *)
Definition round_half_even (n d : Z) : Z :=
  let q := n / d in
  let r := n mod d in
  match 2 * r ?= d with
  | Lt => q
  | Gt => q + 1
  | Eq => if Z.even q then q else q + 1
  end.

(** The exact value [m * 2^e * scale], rounded to an integer. *)
Definition round_scaled (scale : Z) (m : positive) (e : Z) : Z :=
  if 0 <=? e then Z.pos m * 2 ^ e * scale
  else round_half_even (Z.pos m * scale) (2 ^ (- e)).

(** [round(x, 2)]: the exact binary value is rounded half-even to
    hundredths and the decimal result is read back as the nearest
    double; infinities and NaN are returned as they are. *)
Definition round2 (x : float) : float :=
  match x with
  | S754_finite s m e =>
      let r := div (of_int (round_scaled 100 m e)) (of_int 100) in
      if s then SFopp r else r
  | _ => x
  end.

(** [round(x)]: an [int]; raises on NaN and on the infinities. *)
Definition round0 (x : float) : result Z :=
  match x with
  | S754_zero _ => Ok 0
  | S754_finite s m e =>
      let k := round_scaled 1 m e in Ok (if s then - k else k)
  | S754_infinity _ => Raise OverflowError
  | S754_nan => Raise ValueError
  end.

End PyFloat.

Import PyFloat.

(** ** Python strings *)

Module PyStr.

(** A text is held as the bytes of its UTF-8 encoding: a character is
    one byte below 128, or a first byte from 192 on followed by one to
    three continuation bytes (128 to 191). *)

(** [s.lower()] on the letters A to Z. Letters beyond ASCII, which
    Python lowers too, are left as they are: the engine looks for ASCII
    keywords only, and no character beyond ASCII lowers to a text that
    completes one of them. *)
Definition lower_char (c : ascii) : ascii :=
  let n := nat_of_ascii c in
  if ((65 <=? n) && (n <=? 90))%nat then ascii_of_nat (n + 32) else c.

Fixpoint lower (s : string) : string :=
  match s with
  | EmptyString => EmptyString
  | String c t => String (lower_char c) (lower t)
  end.

(** A byte that continues a character of several bytes. *)
Definition is_continuation (c : ascii) : bool :=
  let b := N_of_ascii c in ((128 <=? b) && (b <? 192))%N.

(** How many continuation bytes the first byte of a character
    announces. *)
Definition followers (c : ascii) : nat :=
  let b := N_of_ascii c in
  if (b <? 192)%N then 0
  else if (b <? 224)%N then 1
  else if (b <? 240)%N then 2
  else if (b <? 248)%N then 3
  else 0.

(** The characters of a text from [current] on, which still takes
    [expected] continuation bytes. *)
Fixpoint split_chars (current : string) (expected : nat) (s : string)
  : list string :=
  match s with
  | EmptyString => [current]
  | String c t =>
      match expected with
      | S n =>
          if is_continuation c
          then split_chars (current +:+ String c EmptyString) n t
          else current :: split_chars (String c EmptyString) (followers c) t
      | O => current :: split_chars (String c EmptyString) (followers c) t
      end
  end.

(** The characters of a text, each as the bytes that encode it. *)
Definition chars (s : string) : list string :=
  match s with
  | EmptyString => []
  | String c t => split_chars (String c EmptyString) (followers c) t
  end.

Definition continuation_bits (c : ascii) : option N :=
  if is_continuation c then Some (N_of_ascii c - 128)%N else None.

(** The code point of a character, read from its shortest encoding. *)
Definition codepoint (ch : string) : option N :=
  match ch with
  | String c0 EmptyString =>
      let b := N_of_ascii c0 in if (b <? 128)%N then Some b else None
  | String c0 (String c1 EmptyString) =>
      match continuation_bits c1 with
      | Some x1 =>
          let cp := ((N_of_ascii c0 - 192) * 64 + x1)%N in
          if (followers c0 =? 1)%nat && (128 <=? cp)%N then Some cp else None
      | None => None
      end
  | String c0 (String c1 (String c2 EmptyString)) =>
      match continuation_bits c1, continuation_bits c2 with
      | Some x1, Some x2 =>
          let cp := (((N_of_ascii c0 - 224) * 64 + x1) * 64 + x2)%N in
          if (followers c0 =? 2)%nat && (2048 <=? cp)%N then Some cp else None
      | _, _ => None
      end
  | String c0 (String c1 (String c2 (String c3 EmptyString))) =>
      match continuation_bits c1, continuation_bits c2, continuation_bits c3 with
      | Some x1, Some x2, Some x3 =>
          let cp := ((((N_of_ascii c0 - 240) * 64 + x1) * 64 + x2) * 64 + x3)%N in
          if (followers c0 =? 3)%nat && (65536 <=? cp)%N then Some cp else None
      | _, _, _ => None
      end
  | _ => None
  end.

(** [str.isspace] for one code point: the controls 9 to 13 and 28 to
    31, the space, U+0085, U+00A0, U+1680, U+2000 to U+200A, U+2028,
    U+2029, U+202F, U+205F and U+3000. *)
Definition isspace (cp : N) : bool :=
  ((9 <=? cp) && (cp <=? 13) || (28 <=? cp) && (cp <=? 31) || (cp =? 32)
   || (cp =? 133) || (cp =? 160) || (cp =? 5760)
   || (8192 <=? cp) && (cp <=? 8202)
   || (cp =? 8232) || (cp =? 8233) || (cp =? 8239) || (cp =? 8287)
   || (cp =? 12288))%N.

Definition is_space (ch : string) : bool :=
  match codepoint ch with
  | Some cp => isspace cp
  | None => false
  end.

Fixpoint lstrip_chars (l : list string) : list string :=
  match l with
  | [] => []
  | ch :: t => if is_space ch then lstrip_chars t else l
  end.

Fixpoint rstrip_chars (l : list string) : list string :=
  match l with
  | [] => []
  | ch :: t =>
      match rstrip_chars t with
      | [] => if is_space ch then [] else [ch]
      | t' => ch :: t'
      end
  end.

(** The text a list of characters makes up. *)
Definition join (l : list string) : string :=
  fold_right String.append EmptyString l.

(** [s.strip()]: the text without the whitespace characters at its
    two ends. *)
Definition strip (s : string) : string :=
  join (rstrip_chars (lstrip_chars (chars s))).

(** [len(s)]: the number of characters. *)
Definition len (s : string) : Z := Z.of_nat (length (chars s)).

(** [needle in hay] *)
Fixpoint contains (needle hay : string) : bool :=
  String.prefix needle hay ||
  match hay with
  | EmptyString => false
  | String _ t => contains needle t
  end.

(** [s in l] for a list of strings *)
Definition isin (s : string) (l : list string) : bool :=
  existsb (String.eqb s) l.

End PyStr.

Import PyStr.

(** ** Dynamically typed arguments

    The annotations of the source are not enforced, so a parameter holds
    whatever the caller passed. The functions below are called with numbers
    and strings only. *)

Inductive pyval : Type :=
| PyInt (z : Z)
| PyFloat (f : float)
| PyStr (s : string).

(** [v < n] for an [int] literal [n] that is exact as a double *)
Definition py_lt_int (v : pyval) (n : Z) : result bool :=
  match v with
  | PyInt z => Ok (z <? n)
  | PyFloat f => Ok (ltb f (of_int n))
  | PyStr _ => Raise TypeError
  end.

(** [d.get(key, default)] for a dict with string keys: a key that is not a
    string equals none of them. *)
Definition dict_get (d : gmap string float) (key : pyval) (dflt : float) : float :=
  match key with
  | PyStr s => default dflt (d !! s)
  | _ => dflt
  end.

(** ** The 64-bit integers of a numeric column

    pandas keeps a column of integers as 64-bit integers and computes on
    it without a range check: a difference or an absolute value beyond
    the range wraps around, so the absolute value of the smallest integer
    is that integer. A Python [int] that meets a column in arithmetic is
    one that fits 64 bits. *)

Module Int64.

Definition wrap (z : Z) : Z := (z + 2 ^ 63) mod 2 ^ 64 - 2 ^ 63.

Definition sub (a b : Z) : Z := wrap (a - b).

Definition abs (a : Z) : Z := wrap (Z.abs a).

End Int64.

(** ** utils.py *)

Module Utils.

(** *** validate_user_input *)

Definition validate_user_input (age : Z) (income : float) (health goal : string)
  : bool * string :=
  if (age <? 18) || (age >? 100) then
    (false, "Age must be between 18 and 100 years.")
  else if leb income (of_int 0) || ltb (of_int 1000) income then
    (false, "Annual income must be between 1 and 1000 LPA.")
  else if negb (isin health ["Good"; "Average"; "Poor"]) then
    (false, "Please select a valid health status.")
  else if String.eqb (strip goal) "" then
    (false, "Please provide your insurance goal.")
  else if len (strip goal) <? 5 then
    (false, "Please provide a more detailed insurance goal (at least 5 characters).")
  else
    (true, "Valid input").

(** *** calculate_risk_score *)

Definition health_multiplier : gmap string float :=
  <["Good" := lit 10 10]> (<["Average" := lit 15 10]> (<["Poor" := lit 25 10]> ∅)).

Definition calculate_risk_score (age : Z) (health income : pyval) : result float :=
  let risk_score := of_int 0 in
  (* Age factor *)
  let risk_score :=
    if age <? 25 then add risk_score (lit 10 10)
    else if age <? 35 then add risk_score (lit 15 10)
    else if age <? 50 then add risk_score (lit 20 10)
    else add risk_score (lit 30 10) in
  (* Health factor *)
  let risk_score := mul risk_score (dict_get health_multiplier health (lit 10 10)) in
  (* Income factor (lower income = higher risk) *)
  lt5 ← py_lt_int income 5;
  risk_score ←
    (if lt5 : bool then Ok (mul risk_score (lit 13 10))
     else
       lt15 ← py_lt_int income 15;
       if lt15 : bool then Ok (mul risk_score (lit 11 10))
       else Ok (mul risk_score (lit 9 10)));
  Ok (round2 risk_score).

(** *** The catalog

    One row of [cleaned_insurance_data.csv] with the columns the engine
    reads; the three numeric columns hold integers. *)

Record row : Type := {
  Policy_Type : string;
  Coverage_Lakhs : Z;
  Premium_INR : Z;
  Age : Z
}.

Abbreviation DataFrame := (list row).

(** [df.empty] *)
Definition empty {A : Type} (df : list A) : bool :=
  match df with [] => true | _ => false end.

(** What the process can reach: the catalog file ([None] when it is
    missing or unreadable) and how often it was asked for. *)
Record world : Type := {
  csv : option DataFrame;
  catalog_requests : nat
}.

(** [load_clean_data]: a failed read is reported to the page and an
    empty frame is returned. *)
Definition load_clean_data (w : world) : DataFrame * world :=
  (match csv w with Some df => df | None => [] end,
   {| csv := csv w; catalog_requests := S (catalog_requests w) |}).

(** *** get_policy_recommendations_enhanced *)

(** A candidate with the two columns the ranking adds. *)
Record scored_row : Type := {
  policy : row;
  age_diff : Z;
  affordability_score : float
}.

Record recommendation : Type := {
  best_policy : scored_row;
  top_policies : list scored_row;
  risk_score : float;
  total_available : nat
}.

(** The returned dict: [{"error": msg}] or the four result keys. *)
Inductive response : Type :=
| Error (msg : string)
| Recommendation (r : recommendation).

Definition unable_to_load : string := "Unable to load insurance data".
Definition no_suitable_policies : string :=
  "No suitable policies found for your profile. Please consult with an insurance advisor.".

(** Filter policies based on age range and coverage, with the fallback
    to a broader age range. *)
Definition age_coverage_filter (df : DataFrame) (age : Z) : DataFrame :=
  let age_filtered :=
    List.filter (fun r => (Age r >=? age - 10) && (Age r <=? age + 10)
                          && (Coverage_Lakhs r >=? 10)) df in
  if empty age_filtered then
    List.filter (fun r => Coverage_Lakhs r >=? 10) df
  else age_filtered.

(** Health-based filtering *)
Definition health_based_filtering (age_filtered : DataFrame) (health : string)
  : DataFrame :=
  if String.eqb (lower health) "poor" then
    let health_policies := ["Health"; "Comprehensive"] in
    List.filter (fun r => isin (Policy_Type r) health_policies) age_filtered
  else age_filtered.

(** Goal-based recommendations *)
Definition goal_based_recommendations (age_filtered : DataFrame) (goal : string)
  : DataFrame :=
  let goal_lower := lower goal in
  if contains "family" goal_lower || contains "dependent" goal_lower then
    List.filter (fun r => Coverage_Lakhs r >=? 15) age_filtered
  else if contains "critical" goal_lower || contains "serious" goal_lower then
    let preferred_types := ["Health"; "Comprehensive"] in
    List.filter (fun r => isin (Policy_Type r) preferred_types) age_filtered
  else if contains "save" goal_lower || contains "investment" goal_lower then
    let preferred_types := ["Term Life"; "Comprehensive"] in
    List.filter (fun r => isin (Policy_Type r) preferred_types) age_filtered
  else age_filtered.

(** The two added columns: [abs(Age - age)], computed in the 64-bit
    integers of the [Age] column, and [Premium_INR / (income * 1000) * 12]. *)
Definition add_scores (age : Z) (income : float) (r : row) : scored_row :=
  {| policy := r;
     age_diff := Int64.abs (Int64.sub (Age r) age);
     affordability_score :=
       mul (div (of_int (Premium_INR r)) (mul income (of_int 1000))) (of_int 12) |}.

(** [sort_values] orders a float column ascending with NaN last, all NaN
    tied. *)
Definition float_key_cmp (a b : float) : comparison :=
  match is_nan a, is_nan b with
  | true, true => Eq
  | true, false => Gt
  | false, true => Lt
  | false, false =>
      match SFcompare a b with Some c => c | None => Eq end
  end.

(** [sort_values(['affordability_score', 'age_diff', 'Coverage_Lakhs'],
    ascending=[True, True, False])] compares rows by the first column
    that differs. *)
Definition rank_cmp (a b : scored_row) : comparison :=
  match float_key_cmp (affordability_score a) (affordability_score b) with
  | Eq =>
      match age_diff a ?= age_diff b with
      | Eq => Coverage_Lakhs (policy b) ?= Coverage_Lakhs (policy a)
      | c => c
      end
  | c => c
  end.

Definition rank_le (a b : scored_row) : bool :=
  match rank_cmp a b with Gt => false | _ => true end.

(** The sort is stable: a row goes before the rows it ties with that
    followed it in the frame. *)
Fixpoint insert_row (x : scored_row) (l : list scored_row) : list scored_row :=
  match l with
  | [] => [x]
  | y :: t => if rank_le x y then x :: l else y :: insert_row x t
  end.

Definition sort_values (l : list scored_row) : list scored_row :=
  fold_right insert_row [] l.

(** [iloc[0]] *)
Definition iloc0 {A : Type} (l : list A) : result A :=
  match l with
  | x :: _ => Ok x
  | [] => Raise IndexError
  end.

(** Lines 76 to 122: everything after the risk score is known. *)
Definition recommend_with_risk_score (df : DataFrame) (age : Z) (income : float)
    (health goal : string) (risk_score : float) : result response :=
  let age_filtered := age_coverage_filter df age in
  let age_filtered := health_based_filtering age_filtered health in
  let age_filtered := goal_based_recommendations age_filtered goal in
  if empty age_filtered then Ok (Error no_suitable_policies)
  else
    (* Sort by multiple factors *)
    let age_filtered := map (add_scores age income) age_filtered in
    let recommended := sort_values age_filtered in
    let top_policies := firstn 5 recommended in
    best_policy ← iloc0 recommended;
    Ok (Recommendation
          {| best_policy := best_policy;
             top_policies := top_policies;
             risk_score := risk_score;
             total_available := length age_filtered |}).

(** The whole function. The risk scorer is declared as
    [calculate_risk_score(age, health, income)] and is called here as
    [calculate_risk_score(age, income, health)]: its [health] parameter
    receives the income and its [income] parameter the health string. *)
Definition get_policy_recommendations_enhanced (age : Z) (income : float)
    (health goal : string) (w : world) : result response * world :=
  let '(df, w) := load_clean_data w in
  if empty df then (Ok (Error unable_to_load), w)
  else
    (risk_score ← calculate_risk_score age (PyFloat income) (PyStr health);
     recommend_with_risk_score df age income health goal risk_score,
     w).

(** *** format_currency *)

(** [str(n)] for a natural number: its decimal digits. *)
Definition digits (n : Z) : string :=
  NilEmpty.string_of_uint (N.to_uint (Z.to_N n)).

(** The [,] option of a format: a comma before every group of three
    digits, counted from the right. *)
Fixpoint group_from_right (placed : nat) (reversed : list ascii) : list ascii :=
  match reversed with
  | [] => []
  | c :: t =>
      if (placed =? 3)%nat then ","%char :: c :: group_from_right 1 t
      else c :: group_from_right (S placed) t
  end.

Definition group_thousands (s : string) : string :=
  string_of_list_ascii
    (rev (group_from_right 0 (rev (list_ascii_of_string s)))).

Definition sign_text (negative : bool) : string := if negative then "-" else "".

(** [f"{x:,.0f}"] *)
Definition format_grouped (x : float) : string :=
  match x with
  | S754_nan => "nan"
  | S754_infinity s => sign_text s +:+ "inf"
  | S754_zero s => sign_text s +:+ "0"
  | S754_finite s m e => sign_text s +:+ group_thousands (digits (round_scaled 1 m e))
  end.

(** [f"{x:.1f}"] *)
Definition format_one_decimal (x : float) : string :=
  match x with
  | S754_nan => "nan"
  | S754_infinity s => sign_text s +:+ "inf"
  | S754_zero s => sign_text s +:+ "0.0"
  | S754_finite s m e =>
      let tenths := round_scaled 10 m e in
      sign_text s +:+ digits (tenths / 10) +:+ "." +:+ digits (tenths mod 10)
  end.

(** Format currency in Indian format *)
Definition format_currency (amount : float) : string :=
  if leb (of_int 10000000) amount then (* 1 crore *)
    "₹" +:+ format_one_decimal (div amount (of_int 10000000)) +:+ "Cr"
  else if leb (of_int 100000) amount then (* 1 lakh *)
    "₹" +:+ format_one_decimal (div amount (of_int 100000)) +:+ "L"
  else "₹" +:+ format_grouped amount.

End Utils.

Import Utils.

(** ** insurance_app_clean.py

    The single-file variant of the dashboard carries its own copy of the
    risk scorer; [int(age)] and [float(income)] leave an [int] and a
    [float] as they are. *)

Module InsuranceAppClean.

Definition health_multiplier : gmap string float :=
  <["Good" := lit 10 10]> (<["Average" := lit 15 10]> (<["Poor" := lit 25 10]> ∅)).

Definition calculate_risk_score (age : Z) (health : string) (income : float) : float :=
  let risk_score := of_int 0 in
  let risk_score :=
    if age <? 25 then add risk_score (lit 10 10)
    else if age <? 35 then add risk_score (lit 15 10)
    else if age <? 50 then add risk_score (lit 20 10)
    else add risk_score (lit 30 10) in
  let risk_score := mul risk_score (default (lit 10 10) (health_multiplier !! health)) in
  let risk_score :=
    if ltb income (of_int 5) then mul risk_score (lit 13 10)
    else if ltb income (of_int 15) then mul risk_score (lit 11 10)
    else mul risk_score (lit 9 10) in
  round2 risk_score.

(** *** get_policy_recommendations

    The simpler recommender of the single-file dashboard: a window of five
    years, no coverage floor, a health rule with a fallback, the three
    rows with the most coverage. *)

Record simple_recommendation : Type := {
  policies : list row;
  simple_risk_score : float;
  total_policies_found : nat;
  recommendation_basis : string
}.

Inductive simple_response : Type :=
| SimpleError (msg : string)
| SimpleRecommendation (r : simple_recommendation).

Definition no_suitable_policies_simple : string :=
  "No suitable policies found for your profile".

(** [sort_values(['Coverage_Lakhs', 'Premium_INR'], ascending=[False, True])] *)
Definition value_le (a b : row) : bool :=
  (Coverage_Lakhs b <? Coverage_Lakhs a)
  || ((Coverage_Lakhs a =? Coverage_Lakhs b) && (Premium_INR a <=? Premium_INR b)).

Fixpoint insert_policy (x : row) (l : list row) : list row :=
  match l with
  | [] => [x]
  | y :: t => if value_le x y then x :: l else y :: insert_policy x t
  end.

Definition sort_by_value (l : list row) : list row :=
  fold_right insert_policy [] l.

Section Basis.

(** The sentence [f"Based on age {age}, {health.lower()} health, and income
    ...{income}L"], as the formatting of its three values. *)
Variable basis_text : Z -> string -> float -> string.

Definition get_policy_recommendations (age : Z) (income : float)
    (health goal : string) (w : world) : simple_response * world :=
  let '(df, w) := load_clean_data w in
  if empty df then (SimpleError unable_to_load, w)
  else
    (* Calculate risk score *)
    let risk_score := calculate_risk_score age health income in
    (* Filter policies based on age range and coverage *)
    let age_filtered :=
      List.filter (fun r => (Age r >=? age - 5) && (Age r <=? age + 5)) df in
    (* Health-based filtering *)
    let health_filtered :=
      if String.eqb health "Poor" then
        List.filter (fun r => isin (Policy_Type r) ["Health"; "Comprehensive"])
          age_filtered
      else if String.eqb health "Good" then age_filtered
      else
        List.filter
          (fun r => isin (Policy_Type r) ["Health"; "Term Life"; "Comprehensive"])
          age_filtered in
    let health_filtered :=
      if empty health_filtered then age_filtered else health_filtered in
    if negb (empty health_filtered) then
      let health_filtered := sort_by_value health_filtered in
      let top_policies := firstn 3 health_filtered in
      (SimpleRecommendation
         {| policies := top_policies;
            simple_risk_score := risk_score;
            total_policies_found := length health_filtered;
            recommendation_basis := basis_text age (lower health) income |},
       w)
    else (SimpleError no_suitable_policies_simple, w).

End Basis.

(** The risk level the page shows beside the score. *)
Definition risk_level (risk_score : float) : string :=
  if leb risk_score (of_int 3) then "Low"
  else if leb risk_score (of_int 6) then "Medium"
  else "High".

End InsuranceAppClean.

(** ** agent.py *)

Module Agent.

Section Explanation.

(** The text generator is an outside collaborator: whatever it
    answers, with or without the model loaded. *)
Variable generate_llm_reasoning :
  Z -> float -> string -> string -> scored_row -> float -> string.

(** The enhanced recommendation with the explanation attached. *)
Inductive ai_response : Type :=
| AiError (msg : string)
| AiRecommendation (r : recommendation) (ai_reasoning : string).

Definition get_policy_recommendation_with_ai (age : Z) (income : float)
    (health goal : string) (w : world) : result ai_response * world :=
  let '(recommendation_data, w) :=
    get_policy_recommendations_enhanced age income health goal w in
  (data ← recommendation_data;
   match data with
   | Error msg => Ok (AiError msg)
   | Recommendation r =>
       let ai_reasoning :=
         generate_llm_reasoning age income health goal
           (best_policy r) (risk_score r) in
       Ok (AiRecommendation r ai_reasoning)
   end,
   w).

End Explanation.

(** *** calculate_premium_estimate *)

Record estimate : Type := {
  estimated_premium : Z;
  base_rate : float;
  age_factor : float;
  health_factor : float
}.

Definition base_rates : gmap string float :=
  <["Term Life" := lit 5 10]>
    (<["Health" := lit 8 10]>
       (<["Comprehensive" := lit 12 10]>
          (<["Accident Cover" := lit 3 10]> ∅))).

Definition health_multiplier : gmap string float :=
  <["Good" := lit 10 10]> (<["Average" := lit 13 10]> (<["Poor" := lit 20 10]> ∅)).

Definition calculate_premium_estimate (age coverage_lakhs : Z)
    (policy_type health : string) : result estimate :=
  let base_rate := default (lit 8 10) (base_rates !! policy_type) in
  (* Age multiplier *)
  let age_multiplier :=
    if age <? 25 then lit 8 10
    else if age <? 35 then lit 10 10
    else if age <? 45 then lit 13 10
    else if age <? 55 then lit 17 10
    else lit 25 10 in
  coverage ← float_of_int coverage_lakhs;
  let estimated_premium :=
    mul (mul (mul (mul coverage base_rate) age_multiplier)
             (default (lit 10 10) (health_multiplier !! health)))
        (of_int 1000) in
  premium ← round0 estimated_premium;
  Ok {| estimated_premium := premium;
        base_rate := base_rate;
        age_factor := age_multiplier;
        health_factor := default (lit 10 10) (health_multiplier !! health) |}.

(** *** answer_insurance_question

    The model either is not loaded, or maps a prompt to the text it
    generated or fails with a message. *)

Inductive generation : Type :=
| Generated (generated_text : string)
| Failed (message : string).

Definition llm_unavailable : string :=
  "❌ AI assistant is currently unavailable. Please try again later or contact our support team.".
Definition ask_specific : string :=
  "❓ Please ask a specific insurance-related question.".
Definition be_more_specific : string :=
  "I'd be happy to help with your insurance question. Could you please be more specific?".
Definition trouble : string :=
  "⚠️ Sorry, I'm having trouble processing your question right now. Error: ".

Definition question_prompt (question : string) : string :=
  "<|system|>
You are a helpful Indian insurance expert. Answer questions clearly and concisely in 2-3 sentences. Focus on practical advice for Indian customers.

<|user|>
" +:+ question +:+ "

<|assistant|>".

Definition answer_insurance_question (llm_pipeline : option (string -> generation))
    (question : string) : string :=
  match llm_pipeline with
  | None => llm_unavailable
  | Some pipeline =>
      if String.eqb (strip question) "" then ask_specific
      else
        match pipeline (question_prompt question) with
        | Generated generated_text =>
            let answer := strip generated_text in
            if String.eqb answer "" then be_more_specific else answer
        | Failed message => trouble +:+ message
        end
  end.

End Agent.

(** ** app.py: the submit handler of the recommendation page *)

Module App.

Section Page.

Variable generate_llm_reasoning :
  Z -> float -> string -> string -> scored_row -> float -> string.

(** What the page shows after a submit; the profile and the result it
    also keeps in the session are not part of the outcome. *)
Inductive page : Type :=
| ValidationError (validation_message : string)
| RecommendationError (msg : string)
| Recommended (r : recommendation) (ai_reasoning : string).

Definition on_submit (age : Z) (income : float) (health goal : string)
    (w : world) : result page * world :=
  (* Validate input *)
  let '(is_valid, validation_message) :=
    validate_user_input age income health goal in
  if negb is_valid then (Ok (ValidationError validation_message), w)
  else
    let '(recommendation_data, w) :=
      Agent.get_policy_recommendation_with_ai generate_llm_reasoning
        age income health goal w in
    (data ← recommendation_data;
     match data with
     | Agent.AiError msg => Ok (RecommendationError msg)
     | Agent.AiRecommendation r ai_reasoning => Ok (Recommended r ai_reasoning)
     end,
     w).

End Page.

End App.

(** ** The specification's procedures, as it words them *)

Module Spec.

(** Stage 1: keep rows within ten years of the age; fall back to the
    unfiltered catalog when none is. *)
Definition age_window_filter (catalog : DataFrame) (age : Z) : DataFrame :=
  let kept := List.filter (fun r => Z.abs (Age r - age) <=? 10) catalog in
  if empty kept then catalog else kept.

(** Stage 2: additionally require the coverage floor; relax to the floor
    over the full catalog when the combination is empty. *)
Definition coverage_floor (catalog stage1 : DataFrame) : DataFrame :=
  let kept := List.filter (fun r => 10 <=? Coverage_Lakhs r) stage1 in
  if empty kept then List.filter (fun r => 10 <=? Coverage_Lakhs r) catalog
  else kept.

Definition two_step_candidates (catalog : DataFrame) (age : Z) : DataFrame :=
  coverage_floor catalog (age_window_filter catalog age).

(** The numbers of the specification are doubles, and its products and
    quotients those of IEEE 754: rounded to the nearest double. *)
Definition number (z : Z) : float := binary_normalize 53 1024 z 0 false.
Definition times (x y : float) : float := SFmul 53 1024 x y.
Definition over (x y : float) : float := SFdiv 53 1024 x y.

(** The double a decimal constant denotes: [decimal 13 10] is 1.3. *)
Definition decimal (n d : Z) : float := over (number n) (number d).

(** Ranking, step 6: the two scores of a row. *)
Definition age_diff (age : Z) (r : row) : Z := Z.abs (Age r - age).

Definition affordability_score (income : float) (r : row) : float :=
  times (over (number (Premium_INR r)) (times income (number 1000))) (number 12).

(** Risk scorer, steps 1 to 3. *)
Definition risk_base (age : Z) : float :=
  if age <? 25 then decimal 10 10
  else if age <? 35 then decimal 15 10
  else if age <? 50 then decimal 20 10
  else decimal 30 10.

Definition risk_health_factor (health : string) : float :=
  if String.eqb health "Good" then decimal 10 10
  else if String.eqb health "Average" then decimal 15 10
  else if String.eqb health "Poor" then decimal 25 10
  else decimal 10 10.

Definition risk_income_factor (income : float) : float :=
  if SFltb income (number 5) then decimal 13 10
  else if SFltb income (number 15) then decimal 11 10
  else decimal 9 10.

Definition risk_product (age : Z) (health : string) (income : float) : float :=
  times (times (risk_base age) (risk_health_factor health))
        (risk_income_factor income).

(** Step 4, rounding to two decimal places. The whole number of
    hundredths nearest the exact value [n / d] of the product, the even
    one when two are equally near ([0 < d]). *)
Definition nearest_whole (n d : Z) : Z :=
  let k := (2 * n + d) / (2 * d) in
  if ((2 * n + d) mod (2 * d) =? 0) && Z.odd k then k - 1 else k.

Definition hundredths (x : float) : Z :=
  match x with
  | S754_finite s m e =>
      let v := if s then Z.neg m else Z.pos m in
      nearest_whole (100 * v * 2 ^ Z.max e 0) (2 ^ Z.max (- e) 0)
  | _ => 0
  end.

(** The rounded value is the double nearest that many hundredths. *)
Definition round_hundredths (x : float) : float :=
  match x with
  | S754_finite _ _ _ => decimal (hundredths x) 100
  | _ => x
  end.

Definition risk_score_reference (age : Z) (health : string) (income : float) : float :=
  round_hundredths (risk_product age health income).

(** What rounding to two decimal places means, whichever way a tie
    goes: [k] hundredths are at most half a hundredth from the exact
    value of [x], and [y] is the double nearest [k / 100]. *)
Definition half_hundredth_from (x : float) (k : Z) : Prop :=
  match x with
  | S754_zero _ => k = 0
  | S754_finite s m e =>
      let v := if s then Z.neg m else Z.pos m in
      if 0 <=? e then Z.abs (200 * v * 2 ^ e - 2 * k) <= 1
      else Z.abs (200 * v - 2 * k * 2 ^ (- e)) <= 2 ^ (- e)
  | _ => False
  end.

Definition rounded_to_hundredths (x y : float) : Prop :=
  exists k, half_hundredth_from x k /\ y = decimal k 100.

(** Premium estimator. *)
Definition premium_base_rate (policy_type : string) : float :=
  if String.eqb policy_type "Term Life" then lit 5 10
  else if String.eqb policy_type "Health" then lit 8 10
  else if String.eqb policy_type "Comprehensive" then lit 12 10
  else if String.eqb policy_type "Accident Cover" then lit 3 10
  else lit 8 10.

Definition premium_age_factor (age : Z) : float :=
  if age <? 25 then lit 8 10
  else if age <? 35 then lit 10 10
  else if age <? 45 then lit 13 10
  else if age <? 55 then lit 17 10
  else lit 25 10.

Definition premium_health_factor (health : string) : float :=
  if String.eqb health "Good" then lit 10 10
  else if String.eqb health "Average" then lit 13 10
  else if String.eqb health "Poor" then lit 20 10
  else lit 10 10.

Definition premium_reference (age coverage_lakhs : Z) (policy_type health : string)
  : result Agent.estimate :=
  coverage ← float_of_int coverage_lakhs;
  premium ← round0
    (mul (mul (mul (mul coverage (premium_base_rate policy_type))
                   (premium_age_factor age))
              (premium_health_factor health))
         (of_int 1000));
  Ok {| Agent.estimated_premium := premium;
        Agent.base_rate := premium_base_rate policy_type;
        Agent.age_factor := premium_age_factor age;
        Agent.health_factor := premium_health_factor health |}.

End Spec.

(** ** Vocabulary of the properties *)

(** The UTF-8 encoding of a code point. *)
Definition utf8 (cp : N) : string :=
  let byte (n : N) := ascii_of_N n in
  (if cp <? 128 then String (byte cp) ""
   else if cp <? 2048 then
     String (byte (192 + cp / 64)) (String (byte (128 + cp mod 64)) "")
   else if cp <? 65536 then
     String (byte (224 + cp / 4096))
       (String (byte (128 + cp / 64 mod 64)) (String (byte (128 + cp mod 64)) ""))
   else
     String (byte (240 + cp / 262144))
       (String (byte (128 + cp / 4096 mod 64))
          (String (byte (128 + cp / 64 mod 64))
             (String (byte (128 + cp mod 64)) ""))))%N.

(** The whitespace characters of Unicode: tab to carriage return, the
    four separators 28 to 31, the space, next line, the no-break space,
    the ogham space mark, en quad to hair space, the line and paragraph
    separators, the narrow no-break space, the medium mathematical space
    and the ideographic space. *)
Definition unicode_whitespace : list N :=
  [9; 10; 11; 12; 13; 28; 29; 30; 31; 32; 133; 160; 5760;
   8192; 8193; 8194; 8195; 8196; 8197; 8198; 8199; 8200; 8201; 8202;
   8232; 8233; 8239; 8287; 12288]%N.

(** A text of whitespace characters only. *)
Inductive blank : string -> Prop :=
| blank_empty : blank ""
| blank_space (cp : N) (s : string) :
    In cp unicode_whitespace -> blank s -> blank (utf8 cp +:+ s).

(** A goal that is empty or has fewer than 5 characters after trimming:
    whitespace, then fewer than 5 characters, then whitespace. *)
Definition short_goal (goal : string) : Prop :=
  exists before core after,
    goal = before +:+ core +:+ after
    /\ blank before /\ blank after /\ len core < 5.

(** The inputs the specification calls invalid. *)
Definition invalid_input (age : Z) (income : float) (health goal : string) : Prop :=
  age < 18 \/ age > 100
  \/ SFleb income (Spec.number 0) = true \/ SFltb (Spec.number 1000) income = true
  \/ ~ In health ["Good"; "Average"; "Poor"]
  \/ short_goal goal.

(** The score of utils.py at well-typed arguments, compared with [<=]. *)
Definition score_le (age1 : Z) (health1 : string) (income1 : float)
    (age2 : Z) (health2 : string) (income2 : float) : Prop :=
  exists s1 s2,
    Utils.calculate_risk_score age1 (PyStr health1) (PyFloat income1) = Ok s1
    /\ Utils.calculate_risk_score age2 (PyStr health2) (PyFloat income2) = Ok s2
    /\ leb s1 s2 = true.

(** Health severity: Good < Average < Poor. *)
Definition severity (health : string) : option nat :=
  if String.eqb health "Good" then Some 0%nat
  else if String.eqb health "Average" then Some 1%nat
  else if String.eqb health "Poor" then Some 2%nat
  else None.

Definition severity_le (health1 health2 : string) : Prop :=
  exists n1 n2,
    severity health1 = Some n1 /\ severity health2 = Some n2 /\ (n1 <= n2)%nat.

(** The goal keyword rules. *)

(** The goal text has the keyword as a substring, letter case ignored. *)
Definition mentions (keyword goal : string) : Prop :=
  exists before after, lower goal = before +:+ keyword +:+ after.

Inductive goal_rule : Type :=
| CoverageAtLeast15
| HealthOrComprehensive
| TermLifeOrComprehensive
| NoRestriction.

Definition apply_rule (rule : goal_rule) (candidates : DataFrame) : DataFrame :=
  match rule with
  | CoverageAtLeast15 =>
      List.filter (fun r => 15 <=? Coverage_Lakhs r) candidates
  | HealthOrComprehensive =>
      List.filter (fun r => isin (Policy_Type r) ["Health"; "Comprehensive"]) candidates
  | TermLifeOrComprehensive =>
      List.filter (fun r => isin (Policy_Type r) ["Term Life"; "Comprehensive"]) candidates
  | NoRestriction => candidates
  end.

Definition family_goal (goal : string) : Prop :=
  mentions "family" goal \/ mentions "dependent" goal.
Definition critical_goal (goal : string) : Prop :=
  mentions "critical" goal \/ mentions "serious" goal.
Definition savings_goal (goal : string) : Prop :=
  mentions "save" goal \/ mentions "investment" goal.

(** The rule a goal selects: the first of the three keyword groups it
    mentions, in this order. *)
Inductive selects (goal : string) : goal_rule -> Prop :=
| select_family :
    family_goal goal -> selects goal CoverageAtLeast15
| select_critical :
    ~ family_goal goal -> critical_goal goal -> selects goal HealthOrComprehensive
| select_savings :
    ~ family_goal goal -> ~ critical_goal goal -> savings_goal goal ->
    selects goal TermLifeOrComprehensive
| select_none :
    ~ family_goal goal -> ~ critical_goal goal -> ~ savings_goal goal ->
    selects goal NoRestriction.

(** The ranking order. *)

(** Comparison of keys column by column. *)
Fixpoint lex_cmp (k1 k2 : list Z) : comparison :=
  match k1, k2 with
  | x :: t1, y :: t2 =>
      match x ?= y with
      | Eq => lex_cmp t1 t2
      | c => c
      end
  | _, _ => Eq
  end.

(** A float column read as three integer columns with the same order:
    the class (negative infinity, negative, zero, positive, positive
    infinity, NaN), then exponent and mantissa, negated below zero. *)
Definition float_ord (x : float) : list Z :=
  match x with
  | S754_nan => [3; 0; 0]
  | S754_infinity false => [2; 0; 0]
  | S754_infinity true => [-2; 0; 0]
  | S754_zero _ => [0; 0; 0]
  | S754_finite false m e => [1; e; Z.pos m]
  | S754_finite true m e => [-1; - e; Z.neg m]
  end.

Definition rank_key (a : scored_row) : list Z :=
  float_ord (affordability_score a)
  ++ [age_diff a; - Coverage_Lakhs (policy a)].





(** The candidates with their two scores, in rank order. *)
Definition ranked_candidates (age : Z) (income : float) (candidates : DataFrame)
  : list scored_row :=
  sort_values (map (add_scores age income) candidates).

(** The candidate set that reaches the ranking. *)
Definition candidate_set (df : DataFrame) (age : Z) (health goal : string) : DataFrame :=
  goal_based_recommendations
    (health_based_filtering (age_coverage_filter df age) health) goal.

(** Vocabulary of the further properties. *)

(** The continuation bytes a character takes, at most [n], and the rest
    of the text. *)
Fixpoint take_followers (n : nat) (s : string) : string * string :=
  match n, s with
  | S n', String c t =>
      if is_continuation c
      then let '(a, b) := take_followers n' t in (String c a, b)
      else (EmptyString, s)
  | _, _ => (EmptyString, s)
  end.

(** The text starts with a continuation byte. *)
Definition head_continuation (s : string) : bool :=
  match s with
  | String c _ => is_continuation c
  | EmptyString => false
  end.

(** A list of characters that reads back as itself. *)
Definition decoded (gs : list string) : Prop := chars (join gs) = gs.

(** Characters that are all whitespace. *)
Definition all_space (l : list string) : Prop := forallb is_space l = true.

(** The factors of the risk scorer in tenths. *)
Definition risk_base_tenths (age : Z) : Z :=
  if age <? 25 then 10 else if age <? 35 then 15 else if age <? 50 then 20 else 30.

Definition risk_health_tenths (health : string) : Z :=
  if String.eqb health "Average" then 15
  else if String.eqb health "Poor" then 25
  else 10.

Definition risk_income_tenths (income : float) : Z :=
  if ltb income (of_int 5) then 13
  else if ltb income (of_int 15) then 11
  else 9.

(** The hundredths a score stands for. *)
Definition hundredths_of (x : float) : Z :=
  match x with
  | S754_finite false m e => round_scaled 100 m e
  | S754_finite true m e => - round_scaled 100 m e
  | _ => 0
  end.

(** The factors of the premium estimator in tenths. *)
Definition premium_base_tenths (policy_type : string) : Z :=
  if String.eqb policy_type "Term Life" then 5
  else if String.eqb policy_type "Comprehensive" then 12
  else if String.eqb policy_type "Accident Cover" then 3
  else 8.

Definition premium_age_tenths (age : Z) : Z :=
  if age <? 25 then 8
  else if age <? 35 then 10
  else if age <? 45 then 13
  else if age <? 55 then 17
  else 25.

Definition premium_health_tenths (health : string) : Z :=
  if String.eqb health "Average" then 13
  else if String.eqb health "Poor" then 20
  else 10.

(** The rounded amount of the estimator for a coverage and three factors. *)
Definition premium_amount (coverage_lakhs : Z) (base age_factor health_factor : float)
  : result Z :=
  coverage ← float_of_int coverage_lakhs;
  round0 (mul (mul (mul (mul coverage base) age_factor) health_factor) (of_int 1000)).

(** A check of every whole number from 0 to [n]. *)
Definition check_range (f : Z -> bool) (n : nat) : bool :=
  forallb f (map Z.of_nat (seq 0 (S n))).

(** The amount for the three factors is [coverage * k]. *)
Definition exact_at (base age_factor health_factor : float) (k coverage_lakhs : Z)
  : bool :=
  match premium_amount coverage_lakhs base age_factor health_factor with
  | Ok premium => premium =? coverage_lakhs * k
  | Raise _ => false
  end.

(** The simple recommender: the rows within five years of the age, and
    what is left of them after the health rule and its fallback. *)
Definition simple_window (df : DataFrame) (age : Z) : DataFrame :=
  List.filter (fun r => (Age r >=? age - 5) && (Age r <=? age + 5)) df.

Definition simple_health_types (health : string) : option (list string) :=
  if String.eqb health "Poor" then Some ["Health"; "Comprehensive"]
  else if String.eqb health "Good" then None
  else Some ["Health"; "Term Life"; "Comprehensive"].

Definition simple_found (df : DataFrame) (age : Z) (health : string) : DataFrame :=
  match simple_health_types health with
  | None => simple_window df age
  | Some types =>
      let kept := List.filter (fun r => isin (Policy_Type r) types)
                    (simple_window df age) in
      if empty kept then simple_window df age else kept
  end.

(** More coverage first; on equal coverage the lower premium. *)
Definition value_precedes (a b : row) : Prop :=
  Coverage_Lakhs b < Coverage_Lakhs a
  \/ (Coverage_Lakhs a = Coverage_Lakhs b /\ Premium_INR a <= Premium_INR b).

(** A check of [count] whole numbers from [start] on. *)
Fixpoint check_from (f : Z -> bool) (start : Z) (count : nat) : bool :=
  match count with
  | O => true
  | S c => f start && check_from f (start + 1) c
  end.




(** [k] tenths of a unit of [unit] rupees are shown as [k / 10 . k mod 10]
    with the suffix. *)
Definition tenths_ok (unit : Z) (suffix : string) (k : Z) : bool :=
  String.eqb (format_currency (of_int (k * (unit / 10))))
    ("₹" +:+ digits (k / 10) +:+ "." +:+ digits (k mod 10) +:+ suffix).

(** The candidate has these three key columns. *)
Definition has_key (key : list Z) (s : scored_row) : bool :=
  bool_decide (rank_key s = key).

(** Sample catalog rows. *)

Definition term_life_12 : row :=
  {| Policy_Type := "Term Life"; Coverage_Lakhs := 12; Premium_INR := 6000; Age := 30 |}.
Definition term_life_25 : row :=
  {| Policy_Type := "Term Life"; Coverage_Lakhs := 25; Premium_INR := 9000; Age := 32 |}.
Definition health_20 : row :=
  {| Policy_Type := "Health"; Coverage_Lakhs := 20; Premium_INR := 9000; Age := 35 |}.
Definition comprehensive_50 : row :=
  {| Policy_Type := "Comprehensive"; Coverage_Lakhs := 50; Premium_INR := 9000; Age := 28 |}.
Definition accident_5 : row :=
  {| Policy_Type := "Accident Cover"; Coverage_Lakhs := 5; Premium_INR := 1000; Age := 30 |}.

Definition health_15_age_38 : row :=
  {| Policy_Type := "Health"; Coverage_Lakhs := 15; Premium_INR := 3000; Age := 38 |}.


(** * Properties *)

Ltac split_age a :=
  destruct (Z.ltb_spec a 25);
  [| destruct (Z.ltb_spec a 35); [| destruct (Z.ltb_spec a 50)]].

Ltac split_health h :=
  destruct (String.eqb h "Good");
  [| destruct (String.eqb h "Average"); [| destruct (String.eqb h "Poor")]].

Ltac split_income i :=
  change (ltb i (of_int 5)) with (SFltb i (Spec.number 5)) in *;
  change (ltb i (of_int 15)) with (SFltb i (Spec.number 15)) in *;
  destruct (SFltb i (Spec.number 5)); [| destruct (SFltb i (Spec.number 15))].

(** ** The arithmetic on samples

    The doubles behave as the interpreter's: [0.1 + 0.2] is not [0.3],
    [round(2.675, 2)] is [2.67] because the double below 2.675 is the
    nearest, [round(2.5)] is [2]. *)

Example binary64_samples :
  eqb (add (lit 1 10) (lit 2 10)) (lit 3 10) = false
  /\ round2 (lit 2675 1000) = lit 267 100
  /\ round2 (lit 125 1000) = lit 12 100
  /\ round0 (lit 25 10) = Ok 2
  /\ round0 (lit 35 10) = Ok 4
  /\ of_int (2 ^ 53 + 1) = of_int (2 ^ 53).
Proof. vm_compute. repeat split. Qed.

(** Age 30, Average health, income 4.0: 1.5 * 1.5 * 1.3 is a double just
    above 2.925 and the score is 2.93. *)
Example risk_score_sample :
  calculate_risk_score 30 (PyStr "Average") (PyFloat (lit 40 10)) = Ok (lit 293 100).
Proof. vm_compute. reflexivity. Qed.

(** The combined filter on a sample: the 5 lakh row is below the floor,
    and at age 60 no row is within ten years, so the floored catalog is
    the fallback. *)
Example age_coverage_filter_sample :
  age_coverage_filter [accident_5; term_life_12; health_20] 22 = [term_life_12]
  /\ age_coverage_filter [accident_5; term_life_12; health_20] 60
     = [term_life_12; health_20].
Proof. split; reflexivity. Qed.

(** ** Lists and frames *)

Lemma empty_true_iff {A : Type} (l : list A) : empty l = true <-> l = [].
Proof. destruct l; simpl; split; congruence. Qed.

Lemma empty_false_iff {A : Type} (l : list A) : empty l = false <-> l <> [].
Proof. destruct l; simpl; split; congruence. Qed.

Lemma filter_nil_iff {A : Type} (f : A -> bool) (l : list A) :
  List.filter f l = [] <-> forall x, In x l -> f x = false.
Proof.
  induction l as [|a l IH]; simpl.
  - split; [intros _ x [] | reflexivity].
  - destruct (f a) eqn:Ha; split.
    + discriminate.
    + intros H. specialize (H a (or_introl eq_refl)). congruence.
    + intros H x [<-|Hx]; [assumption | now apply IH].
    + intros H. apply IH. intros x Hx. apply H. now right.
Qed.

Lemma filter_filter_andb {A : Type} (f g : A -> bool) (l : list A) :
  List.filter g (List.filter f l) = List.filter (fun x => f x && g x) l.
Proof.
  induction l as [|a l IH]; simpl; [reflexivity|].
  destruct (f a); simpl; [destruct (g a)|]; now rewrite IH.
Qed.

Lemma filter_ext_bool {A : Type} (f g : A -> bool) (l : list A) :
  (forall x, f x = g x) -> List.filter f l = List.filter g l.
Proof.
  intros E. induction l as [|a l IH]; simpl; [reflexivity|].
  now rewrite E, IH.
Qed.

Lemma age_window_bool (a age : Z) :
  (Z.abs (a - age) <=? 10) = (a >=? age - 10) && (a <=? age + 10).
Proof.
  rewrite Z.geb_leb.
  destruct (Z.leb_spec (Z.abs (a - age)) 10), (Z.leb_spec (age - 10) a),
    (Z.leb_spec a (age + 10)); simpl; try reflexivity; lia.
Qed.

(** C4. For every catalog and every age the candidate set that enters the
    health filter is the same whether it is computed by the two stages of
    the specification (age window with fallback to the catalog, then the
    coverage floor with fallback to the floored catalog) or by the code's
    single combined filter with its fallback. *)
Theorem two_step_matches_combined_filter (catalog : DataFrame) (age : Z) :
  Spec.two_step_candidates catalog age = age_coverage_filter catalog age.
Proof.
  unfold Spec.two_step_candidates, Spec.coverage_floor, Spec.age_window_filter,
    age_coverage_filter.
  set (window := fun r : row => Z.abs (Age r - age) <=? 10).
  set (floor := fun r : row => 10 <=? Coverage_Lakhs r).
  assert (Hcomb : forall l,
    List.filter (fun r => (Age r >=? age - 10) && (Age r <=? age + 10)
                          && (Coverage_Lakhs r >=? 10)) l
    = List.filter (fun r => window r && floor r) l).
  { intros l. apply filter_ext_bool. intros r. unfold window, floor.
    rewrite age_window_bool. f_equal. apply Z.geb_leb. }
  assert (Hfloor : forall l,
    List.filter (fun r => Coverage_Lakhs r >=? 10) l = List.filter floor l).
  { intros l. apply filter_ext_bool. intros r. unfold floor. apply Z.geb_leb. }
  rewrite Hcomb, Hfloor.
  destruct (empty (List.filter window catalog)) eqn:Hw.
  - apply empty_true_iff in Hw.
    assert (Hnone : List.filter (fun r => window r && floor r) catalog = []).
    { apply filter_nil_iff. intros x Hx.
      rewrite (proj1 (filter_nil_iff window catalog) Hw x Hx). reflexivity. }
    rewrite Hnone. simpl.
    destruct (empty (List.filter floor catalog)); reflexivity.
  - rewrite filter_filter_andb. reflexivity.
Qed.

(** ** The risk scorer *)

Lemma risk_health_multiplier_get (health : string) :
  default (lit 10 10) (Utils.health_multiplier !! health)
  = Spec.risk_health_factor health.
Proof.
  unfold Utils.health_multiplier, Spec.risk_health_factor.
  rewrite !lookup_insert, lookup_empty.
  destruct (String.eqb_spec health "Good") as [->|HG]; [reflexivity|].
  destruct (String.eqb_spec health "Average") as [->|HA]; [reflexivity|].
  destruct (String.eqb_spec health "Poor") as [->|HP]; [reflexivity|].
  repeat case_decide; first [congruence | reflexivity].
Qed.

Lemma clean_health_multiplier_get (health : string) :
  default (lit 10 10) (InsuranceAppClean.health_multiplier !! health)
  = Spec.risk_health_factor health.
Proof. apply risk_health_multiplier_get. Qed.

(** The scorer of the single-file dashboard is the reference computation. *)
Lemma clean_risk_score_reference (age : Z) (health : string) (income : float) :
  InsuranceAppClean.calculate_risk_score age health income
  = Spec.risk_score_reference age health income.
Proof.
  unfold InsuranceAppClean.calculate_risk_score, Spec.risk_score_reference,
    Spec.risk_product.
  rewrite clean_health_multiplier_get.
  unfold Spec.risk_base, Spec.risk_income_factor, Spec.risk_health_factor.
  change (ltb income (of_int 5)) with (SFltb income (Spec.number 5)).
  change (ltb income (of_int 15)) with (SFltb income (Spec.number 15)).
  destruct (age <? 25); [|destruct (age <? 35); [|destruct (age <? 50)]];
    split_health health;
    (destruct (SFltb income (Spec.number 5));
     [|destruct (SFltb income (Spec.number 15))]);
    vm_compute; reflexivity.
Qed.

(** The scorer of utils.py, called with a string and a float, returns
    the reference computation. *)
Lemma utils_risk_score_reference (age : Z) (health : string) (income : float) :
  Utils.calculate_risk_score age (PyStr health) (PyFloat income)
  = Ok (Spec.risk_score_reference age health income).
Proof.
  unfold Utils.calculate_risk_score, Spec.risk_score_reference,
    Spec.risk_product, dict_get, py_lt_int.
  rewrite risk_health_multiplier_get.
  unfold Spec.risk_base, Spec.risk_income_factor, Spec.risk_health_factor.
  change (ltb income (of_int 5)) with (SFltb income (Spec.number 5)).
  change (ltb income (of_int 15)) with (SFltb income (Spec.number 15)).
  destruct (age <? 25); [|destruct (age <? 35); [|destruct (age <? 50)]];
    split_health health;
    (destruct (SFltb income (Spec.number 5));
     [|destruct (SFltb income (Spec.number 15))]);
    vm_compute; reflexivity.
Qed.

(** The reference score is the product of the three factors rounded to
    two decimal places. *)
Lemma reference_rounds_product (age : Z) (health : string) (income : float) :
  Spec.rounded_to_hundredths (Spec.risk_product age health income)
    (Spec.risk_score_reference age health income).
Proof.
  exists (Spec.hundredths (Spec.risk_product age health income)).
  unfold Spec.risk_score_reference, Spec.risk_product, Spec.risk_base,
    Spec.risk_health_factor, Spec.risk_income_factor.
  split_age age; split_health health; split_income income;
    (split; [vm_compute; discriminate | vm_compute; reflexivity]).
Qed.

(** C6. For every age, health string and income the risk score is the
    reference computation of the specification: the age base, times the
    health factor (1.0 for a string that is none of Good, Average, Poor),
    times the income factor, rounded to two decimal places: the result
    is the double nearest a whole number of hundredths that is at most
    half a hundredth from the product. It holds for the scorer of
    utils.py and for the copy in insurance_app_clean.py. *)
Theorem risk_score_matches_reference (age : Z) (health : string) (income : float) :
  Utils.calculate_risk_score age (PyStr health) (PyFloat income)
  = Ok (Spec.risk_score_reference age health income)
  /\ InsuranceAppClean.calculate_risk_score age health income
     = Spec.risk_score_reference age health income
  /\ Spec.rounded_to_hundredths (Spec.risk_product age health income)
       (Spec.risk_score_reference age health income).
Proof.
  split; [apply utils_risk_score_reference|].
  split; [apply clean_risk_score_reference | apply reference_rounds_product].
Qed.

Lemma reference_monotone_in_age (health : string) (income : float) (age1 age2 : Z) :
  age1 <= age2 ->
  leb (Spec.risk_score_reference age1 health income)
      (Spec.risk_score_reference age2 health income) = true.
Proof.
  intros Hle.
  unfold Spec.risk_score_reference, Spec.risk_product, Spec.risk_base, Spec.risk_health_factor,
    Spec.risk_income_factor.
  split_age age1; split_age age2; try lia;
    split_health health; split_income income; vm_compute; reflexivity.
Qed.

Lemma reference_monotone_in_health (age : Z) (income : float) (health1 health2 : string) :
  severity_le health1 health2 ->
  leb (Spec.risk_score_reference age health1 income)
      (Spec.risk_score_reference age health2 income) = true.
Proof.
  intros (n1 & n2 & H1 & H2 & Hle).
  unfold severity in H1, H2.
  unfold Spec.risk_score_reference, Spec.risk_product, Spec.risk_base, Spec.risk_health_factor,
    Spec.risk_income_factor.
  split_health health1; split_health health2; try discriminate;
    injection H1 as <-; injection H2 as <-; try lia;
    split_age age; split_income income; vm_compute; reflexivity.
Qed.

(** C9. With health and income fixed the risk score does not decrease when
    the age grows (so neither when it moves to a higher bracket), and with
    age and income fixed it does not decrease along Good, Average, Poor. *)
Theorem risk_score_monotone :
  (forall (health : string) (income : float) (age1 age2 : Z),
      age1 <= age2 -> score_le age1 health income age2 health income)
  /\ (forall (age : Z) (income : float) (health1 health2 : string),
         severity_le health1 health2 ->
         score_le age health1 income age health2 income).
Proof.
  split.
  - intros health income age1 age2 Hle.
    exists (Spec.risk_score_reference age1 health income),
      (Spec.risk_score_reference age2 health income).
    repeat split; try apply utils_risk_score_reference.
    now apply reference_monotone_in_age.
  - intros age income health1 health2 Hle.
    exists (Spec.risk_score_reference age health1 income),
      (Spec.risk_score_reference age health2 income).
    repeat split; try apply utils_risk_score_reference.
    now apply reference_monotone_in_health.
Qed.

Lemma risk_score_monotone_witness :
  score_le 24 "Average" (lit 80 10) 25 "Average" (lit 80 10)
  /\ score_le 40 "Good" (lit 80 10) 40 "Poor" (lit 80 10).
Proof.
  split.
  - apply (proj1 risk_score_monotone "Average" (lit 80 10) 24 25). lia.
  - apply (proj2 risk_score_monotone 40 (lit 80 10) "Good" "Poor").
    exists 0%nat, 2%nat. repeat split. lia.
Defined.

(** C10. For a valid profile (age from 18 to 100, health one of Good,
    Average, Poor, income positive and at most 1000) the risk score lies
    between 0.9 and 9.75, both reached, so it never exceeds the 10 it is
    displayed against. *)
Theorem risk_score_bounds (age : Z) (health : string) (income : float) :
  18 <= age <= 100 ->
  In health ["Good"; "Average"; "Poor"] ->
  ltb (of_int 0) income = true ->
  leb income (of_int 1000) = true ->
  (exists s,
      Utils.calculate_risk_score age (PyStr health) (PyFloat income) = Ok s
      /\ leb (lit 90 100) s = true
      /\ leb s (lit 975 100) = true
      /\ leb s (of_int 10) = true)
  /\ Utils.calculate_risk_score 18 (PyStr "Good") (PyFloat (of_int 1000))
     = Ok (lit 90 100)
  /\ Utils.calculate_risk_score 100 (PyStr "Poor") (PyFloat (of_int 1))
     = Ok (lit 975 100).
Proof.
  intros Hage Hhealth Hpos Hmax.
  split; [|split; vm_compute; reflexivity].
  exists (Spec.risk_score_reference age health income).
  split; [apply utils_risk_score_reference|].
  unfold Spec.risk_score_reference, Spec.risk_product, Spec.risk_base, Spec.risk_income_factor.
  simpl in Hhealth.
  destruct Hhealth as [<-|[<-|[<-|[]]]];
    split_age age; split_income income; vm_compute; repeat split.
Qed.

Lemma risk_score_bounds_witness :
  (exists s,
      Utils.calculate_risk_score 42 (PyStr "Average") (PyFloat (lit 80 10)) = Ok s
      /\ leb (lit 90 100) s = true
      /\ leb s (lit 975 100) = true
      /\ leb s (of_int 10) = true)
  /\ Utils.calculate_risk_score 18 (PyStr "Good") (PyFloat (of_int 1000))
     = Ok (lit 90 100)
  /\ Utils.calculate_risk_score 100 (PyStr "Poor") (PyFloat (of_int 1))
     = Ok (lit 975 100).
Proof.
  apply (risk_score_bounds 42 "Average" (lit 80 10)).
  - lia.
  - simpl. right. left. reflexivity.
  - vm_compute. reflexivity.
  - vm_compute. reflexivity.
Defined.

(** ** The premium estimator *)

Lemma base_rates_get (policy_type : string) :
  default (lit 8 10) (Agent.base_rates !! policy_type)
  = Spec.premium_base_rate policy_type.
Proof.
  unfold Agent.base_rates, Spec.premium_base_rate.
  rewrite !lookup_insert, lookup_empty.
  destruct (String.eqb_spec policy_type "Term Life") as [->|HT]; [reflexivity|].
  destruct (String.eqb_spec policy_type "Health") as [->|HH]; [reflexivity|].
  destruct (String.eqb_spec policy_type "Comprehensive") as [->|HC]; [reflexivity|].
  destruct (String.eqb_spec policy_type "Accident Cover") as [->|HA]; [reflexivity|].
  repeat case_decide; first [congruence | reflexivity].
Qed.

Lemma premium_health_multiplier_get (health : string) :
  default (lit 10 10) (Agent.health_multiplier !! health)
  = Spec.premium_health_factor health.
Proof.
  unfold Agent.health_multiplier, Spec.premium_health_factor.
  rewrite !lookup_insert, lookup_empty.
  destruct (String.eqb_spec health "Good") as [->|HG]; [reflexivity|].
  destruct (String.eqb_spec health "Average") as [->|HA]; [reflexivity|].
  destruct (String.eqb_spec health "Poor") as [->|HP]; [reflexivity|].
  repeat case_decide; first [congruence | reflexivity].
Qed.

Lemma premium_estimate_reference (age coverage_lakhs : Z) (policy_type health : string) :
  Agent.calculate_premium_estimate age coverage_lakhs policy_type health
  = Spec.premium_reference age coverage_lakhs policy_type health.
Proof.
  unfold Agent.calculate_premium_estimate, Spec.premium_reference.
  rewrite base_rates_get, premium_health_multiplier_get.
  unfold Spec.premium_age_factor.
  destruct (age <? 25); [|destruct (age <? 35); [|destruct (age <? 45);
    [|destruct (age <? 55)]]]; reflexivity.
Qed.


(** On the values the premium calculator page offers the estimator
    returns a premium: no conversion or rounding raises. *)
Lemma premium_estimate_returns (age coverage_lakhs : Z) (policy_type health : string) :
  In coverage_lakhs [5; 10; 15; 20; 25; 30; 50] ->
  exists e,
    Agent.calculate_premium_estimate age coverage_lakhs policy_type health = Ok e
    /\ 0 < Agent.estimated_premium e.
Proof.
  intros Hc.
  rewrite premium_estimate_reference.
  unfold Spec.premium_reference, Spec.premium_age_factor, Spec.premium_base_rate,
    Spec.premium_health_factor.
  simpl in Hc.
  destruct Hc as [<-|[<-|[<-|[<-|[<-|[<-|[<-|[]]]]]]]];
    (destruct (age <? 25); [|destruct (age <? 35); [|destruct (age <? 45);
       [|destruct (age <? 55)]]]);
    (destruct (String.eqb policy_type "Term Life");
     [|destruct (String.eqb policy_type "Health");
       [|destruct (String.eqb policy_type "Comprehensive");
         [|destruct (String.eqb policy_type "Accident Cover")]]]);
    split_health health;
    eexists; (split; [vm_compute; reflexivity | reflexivity]).
Qed.

(** ** Strings *)

Lemma isin_In (s : string) (l : list string) : isin s l = true <-> In s l.
Proof.
  unfold isin. rewrite existsb_exists. split.
  - intros (x & Hx & E). apply String.eqb_eq in E. now subst.
  - intros H. exists s. split; [assumption | apply String.eqb_refl].
Qed.

Lemma append_cons (c : ascii) (s t : string) :
  String c s +:+ t = String c (s +:+ t).
Proof. reflexivity. Qed.

Lemma append_nil (t : string) : "" +:+ t = t.
Proof. reflexivity. Qed.

Lemma append_nil_r (s : string) : s +:+ "" = s.
Proof. induction s as [|c s IH]; [reflexivity|]. now rewrite append_cons, IH. Qed.

Lemma append_assoc (a b c : string) : (a +:+ b) +:+ c = a +:+ (b +:+ c).
Proof. induction a as [|x a IH]; [reflexivity|]. now rewrite !append_cons, IH. Qed.

Lemma append_inv_head (a x y : string) : a +:+ x = a +:+ y -> x = y.
Proof.
  induction a as [|c a IH]; [now rewrite !append_nil|].
  rewrite !append_cons. intros [= H]. auto.
Qed.

Lemma split_chars_take (current : string) (n : nat) (s : string) :
  split_chars current n s
  = (current +:+ fst (take_followers n s)) :: chars (snd (take_followers n s)).
Proof.
  revert current n. induction s as [|c t IH]; intros current n.
  - destruct n; cbn; now rewrite append_nil_r.
  - destruct n as [|n]; cbn [split_chars take_followers].
    + cbn. now rewrite append_nil_r.
    + destruct (is_continuation c).
      * rewrite IH. destruct (take_followers n t) as [a b]. cbn [fst snd].
        now rewrite append_assoc.
      * cbn. now rewrite append_nil_r.
Qed.

Lemma chars_cons (c : ascii) (t : string) :
  chars (String c t)
  = String c (fst (take_followers (followers c) t))
    :: chars (snd (take_followers (followers c) t)).
Proof. unfold chars at 1. now rewrite split_chars_take. Qed.

Lemma take_followers_app (n : nat) (s : string) :
  fst (take_followers n s) +:+ snd (take_followers n s) = s.
Proof.
  revert n. induction s as [|c t IH]; intros [|n]; try reflexivity.
  cbn [take_followers]. destruct (is_continuation c); [|reflexivity].
  specialize (IH n). destruct (take_followers n t) as [a b]. cbn [fst snd] in *.
  now rewrite append_cons, IH.
Qed.

Lemma join_app (x y : list string) : join (x ++ y) = join x +:+ join y.
Proof.
  induction x as [|g x IH]; [reflexivity|].
  cbn [join fold_right app]. fold (join (x ++ y)). fold (join x).
  now rewrite IH, append_assoc.
Qed.

Lemma join_split_chars (current : string) (n : nat) (s : string) :
  join (split_chars current n s) = current +:+ s.
Proof.
  revert current n. induction s as [|c t IH]; intros current n.
  - cbn. now rewrite append_nil_r.
  - destruct n as [|n]; cbn [split_chars].
    + cbn [join fold_right]. fold (join (split_chars (String c "") (followers c) t)).
      now rewrite IH.
    + destruct (is_continuation c).
      * rewrite IH. now rewrite append_assoc.
      * cbn [join fold_right].
        fold (join (split_chars (String c "") (followers c) t)). now rewrite IH.
Qed.

(** The characters of a text make up the text. *)
Lemma join_chars (s : string) : join (chars s) = s.
Proof. destruct s as [|c t]; [reflexivity|]. apply join_split_chars. Qed.

Lemma length_append (a b : string) :
  String.length (a +:+ b) = (String.length a + String.length b)%nat.
Proof.
  induction a as [|c a IH]; [reflexivity|].
  rewrite append_cons. cbn. now rewrite IH.
Qed.

Lemma chars_not_empty (s : string) : List.Forall (fun g => g <> "") (chars s).
Proof.
  remember (String.length s) as n eqn:E.
  revert s E. induction n as [n IH] using lt_wf_ind. intros [|c t] E.
  - constructor.
  - rewrite chars_cons. constructor; [discriminate|].
    apply (IH (String.length (snd (take_followers (followers c) t)))); [|reflexivity].
    subst n. rewrite <- (take_followers_app (followers c) t) at 2.
    cbn [String.length]. rewrite length_append. lia.
Qed.

Lemma decoded_chars (s : string) : decoded (chars s).
Proof. unfold decoded. now rewrite join_chars. Qed.

Lemma decoded_not_empty (gs : list string) :
  decoded gs -> List.Forall (fun g => g <> "") gs.
Proof. intros H. rewrite <- H. apply chars_not_empty. Qed.

Lemma decoded_cons_inv (g : string) (gs : list string) :
  decoded (g :: gs) ->
  exists c a,
    g = String c a
    /\ take_followers (followers c) (a +:+ join gs) = (a, join gs)
    /\ decoded gs.
Proof.
  intros H. pose proof (decoded_not_empty _ H) as Hne.
  inversion Hne as [|? ? Hg _]; subst.
  destruct g as [|c a]; [congruence|]. exists c, a. split; [reflexivity|].
  unfold decoded in H. cbn [join fold_right] in H. fold (join gs) in H.
  rewrite append_cons, chars_cons in H.
  pose proof (take_followers_app (followers c) (a +:+ join gs)) as Happ.
  destruct (take_followers (followers c) (a +:+ join gs)) as [a' b'].
  cbn [fst snd] in *. injection H as Ha Hb. subst a'.
  apply append_inv_head in Happ. subst b'. split; [reflexivity | exact Hb].
Qed.

Lemma decoded_cons (c : ascii) (a : string) (gs : list string) :
  take_followers (followers c) (a +:+ join gs) = (a, join gs) ->
  decoded gs -> decoded (String c a :: gs).
Proof.
  intros Ht Hd. unfold decoded. cbn [join fold_right]. fold (join gs).
  rewrite append_cons, chars_cons, Ht. cbn [fst snd]. now rewrite Hd.
Qed.

Lemma take_followers_rest (n : nat) (a x y : string) :
  take_followers n (a +:+ x) = (a, x) ->
  (head_continuation y = true -> head_continuation x = true) ->
  take_followers n (a +:+ y) = (a, y).
Proof.
  revert n. induction a as [|c a IH]; intros n H Hy.
  - rewrite append_nil in *. destruct n as [|n]; [now destruct y|].
    assert (Hx : head_continuation x = false).
    { destruct x as [|d t]; [reflexivity|]. cbn [take_followers] in H.
      cbn. destruct (is_continuation d); [|reflexivity].
      destruct (take_followers n t). discriminate. }
    destruct y as [|d t]; [reflexivity|]. cbn in *.
    destruct (is_continuation d); [|reflexivity].
    rewrite Hy in Hx by reflexivity. discriminate.
  - rewrite append_cons in *. destruct n as [|n]; [discriminate|].
    cbn [take_followers] in *. destruct (is_continuation c); [|discriminate].
    destruct (take_followers n (a +:+ x)) as [a1 b1] eqn:E.
    injection H as -> ->. now rewrite (IH n E Hy).
Qed.

Lemma head_continuation_join (g : string) (gs hs : list string) :
  g <> "" ->
  head_continuation (join (g :: gs)) = head_continuation (join (g :: gs ++ hs)).
Proof. destruct g; [congruence|]. reflexivity. Qed.

(** Dropping characters at either end leaves a list of characters. *)
Lemma decoded_tail (gs hs : list string) : decoded (gs ++ hs) -> decoded hs.
Proof.
  induction gs as [|g gs IH]; [auto|].
  cbn [app]. intros H. apply decoded_cons_inv in H as (c & a & _ & _ & H). auto.
Qed.

Lemma decoded_init (gs hs : list string) : decoded (gs ++ hs) -> decoded gs.
Proof.
  induction gs as [|g gs IH]; [reflexivity|].
  cbn [app]. intros H. pose proof (decoded_not_empty _ H) as Hne.
  apply decoded_cons_inv in H as (c & a & -> & Ht & H).
  apply decoded_cons; [|auto].
  apply (take_followers_rest _ _ _ _ Ht).
  destruct gs as [|g' gs]; [discriminate|].
  inversion Hne as [|? ? _ Hne']. inversion Hne' as [|? ? Hg' _]. subst.
  cbn [app]. now rewrite <- head_continuation_join.
Qed.

Lemma lstrip_chars_spaces_before (l : list string) :
  exists pre, l = (pre ++ lstrip_chars l)%list /\ all_space pre.
Proof.
  induction l as [|g l (pre & IH & Hpre)]; [now exists []|].
  cbn [lstrip_chars]. destruct (is_space g) eqn:E; [|now exists []].
  exists (g :: pre). cbn [app]. split; [now rewrite <- IH|].
  unfold all_space in *. cbn [forallb]. now rewrite E.
Qed.

Lemma rstrip_chars_spaces_after (l : list string) :
  exists post, l = (rstrip_chars l ++ post)%list /\ all_space post.
Proof.
  induction l as [|g l (post & IH & Hpost)]; [now exists []|].
  cbn [rstrip_chars]. destruct (rstrip_chars l) as [|h t].
  - cbn [app] in IH. subst post. destruct (is_space g) eqn:E.
    + exists (g :: l). split; [reflexivity|].
      unfold all_space in *. cbn [forallb]. now rewrite E.
    + now exists l.
  - exists post. cbn [app]. split; [now rewrite IH at 1 | assumption].
Qed.

(** The characters of the trimmed text are the characters of the text
    without the whitespace at both ends. *)
Lemma chars_strip (s : string) :
  chars (strip s) = rstrip_chars (lstrip_chars (chars s)).
Proof.
  unfold strip. change (decoded (rstrip_chars (lstrip_chars (chars s)))).
  destruct (rstrip_chars_spaces_after (lstrip_chars (chars s))) as (post & E & _).
  apply (decoded_init _ post). rewrite <- E.
  destruct (lstrip_chars_spaces_before (chars s)) as (pre & E' & _).
  apply (decoded_tail pre). rewrite <- E'. apply decoded_chars.
Qed.

Lemma lstrip_chars_spaces (l m : list string) :
  all_space l -> lstrip_chars (l ++ m) = lstrip_chars m.
Proof.
  unfold all_space. induction l as [|g l IH]; [reflexivity|].
  cbn [forallb app lstrip_chars]. intros [Hg Hl]%andb_prop. rewrite Hg. auto.
Qed.

Lemma rstrip_chars_spaces (l m : list string) :
  all_space m -> rstrip_chars (l ++ m) = rstrip_chars l.
Proof.
  unfold all_space. intros Hm.
  assert (E : rstrip_chars m = []).
  { induction m as [|g m IH]; [reflexivity|].
    cbn [forallb] in Hm. apply andb_prop in Hm as [Hg Hm].
    cbn [rstrip_chars]. now rewrite (IH Hm), Hg. }
  induction l as [|g l IH]; [exact E|].
  cbn [app rstrip_chars]. now rewrite IH.
Qed.

Lemma lstrip_chars_app (l m : list string) :
  lstrip_chars l <> [] -> lstrip_chars (l ++ m) = (lstrip_chars l ++ m)%list.
Proof.
  induction l as [|g l IH]; [intros H; exfalso; now apply H|].
  cbn [app lstrip_chars]. destruct (is_space g); auto.
Qed.

Lemma lstrip_chars_all_space (l : list string) :
  lstrip_chars l = [] -> all_space l.
Proof.
  unfold all_space. induction l as [|g l IH]; [reflexivity|].
  cbn [lstrip_chars forallb]. destruct (is_space g); [auto | discriminate].
Qed.

(** Whitespace around a list of characters does not show after
    trimming. *)
Lemma strip_chars_padding (l m r : list string) :
  all_space l -> all_space r ->
  rstrip_chars (lstrip_chars (l ++ m ++ r))
  = rstrip_chars (lstrip_chars m).
Proof.
  intros Hl Hr. rewrite (lstrip_chars_spaces l _ Hl).
  destruct (lstrip_chars m) as [|g t] eqn:E.
  - apply lstrip_chars_all_space in E.
    assert (Hmr : all_space (m ++ r)).
    { unfold all_space in *. now rewrite forallb_app, E, Hr. }
    rewrite <- (app_nil_r (m ++ r)), (lstrip_chars_spaces _ [] Hmr). reflexivity.
  - rewrite lstrip_chars_app by congruence. rewrite E.
    now apply rstrip_chars_spaces.
Qed.

Lemma lstrip_chars_head (l : list string) :
  lstrip_chars l = []
  \/ exists g t, lstrip_chars l = g :: t /\ is_space g = false.
Proof.
  induction l as [|g l IH]; [now left|].
  cbn [lstrip_chars]. destruct (is_space g) eqn:E; [exact IH|].
  right. now exists g, l.
Qed.

Lemma rstrip_chars_idempotent (l : list string) :
  rstrip_chars (rstrip_chars l) = rstrip_chars l.
Proof.
  induction l as [|g l IH]; [reflexivity|].
  cbn [rstrip_chars]. destruct (rstrip_chars l) as [|h t] eqn:E.
  - destruct (is_space g) eqn:Eg; [reflexivity|].
    cbn [rstrip_chars]. now rewrite Eg.
  - cbn [rstrip_chars]. cbn [rstrip_chars] in IH. now rewrite IH.
Qed.

Lemma strip_chars_idempotent (l : list string) :
  rstrip_chars (lstrip_chars (rstrip_chars (lstrip_chars l)))
  = rstrip_chars (lstrip_chars l).
Proof.
  destruct (lstrip_chars_head l) as [E|(g & t & E & Eg)]; rewrite E; [reflexivity|].
  assert (H : exists t', rstrip_chars (g :: t) = g :: t').
  { cbn [rstrip_chars]. destruct (rstrip_chars t); [rewrite Eg|]; eauto. }
  destruct H as (t' & E'). rewrite E'. cbn [lstrip_chars]. rewrite Eg, <- E'.
  apply rstrip_chars_idempotent.
Qed.

Lemma strip_idempotent (s : string) : strip (strip s) = strip s.
Proof.
  unfold strip at 1. rewrite chars_strip, strip_chars_idempotent. reflexivity.
Qed.

Lemma length_lstrip_chars (l : list string) :
  (length (lstrip_chars l) <= length l)%nat.
Proof.
  induction l as [|g l IH]; [reflexivity|].
  cbn [lstrip_chars]. destruct (is_space g); cbn [length]; lia.
Qed.

Lemma length_rstrip_chars (l : list string) :
  (length (rstrip_chars l) <= length l)%nat.
Proof.
  induction l as [|g l IH]; [reflexivity|].
  cbn [rstrip_chars]. destruct (rstrip_chars l); [destruct (is_space g)|];
    cbn [length] in *; lia.
Qed.

(** Trimming never adds a character. *)
Lemma len_strip_le (s : string) : len (strip s) <= len s.
Proof.
  unfold len. rewrite chars_strip.
  pose proof (length_rstrip_chars (lstrip_chars (chars s))).
  pose proof (length_lstrip_chars (chars s)). lia.
Qed.

Lemma whitespace_char (cp : N) (x : string) :
  In cp unicode_whitespace ->
  chars (utf8 cp +:+ x) = utf8 cp :: chars x
  /\ is_space (utf8 cp) = true
  /\ head_continuation (utf8 cp +:+ x) = false.
Proof.
  intros H. unfold unicode_whitespace in H. cbn [In] in H.
  repeat (destruct H as [<-|H]; [repeat split; destruct x; reflexivity|]).
  contradiction.
Qed.

Lemma blank_chars (l : string) :
  blank l ->
  all_space (chars l)
  /\ head_continuation l = false
  /\ forall x, chars (l +:+ x) = (chars l ++ chars x)%list.
Proof.
  induction 1 as [|cp s Hcp Hs (IH1 & IH2 & IH3)].
  - repeat split.
  - destruct (whitespace_char cp s Hcp) as (Ec & Es & Eh).
    split; [|split].
    + rewrite Ec. unfold all_space in *. cbn [forallb]. now rewrite Es, IH1.
    + exact Eh.
    + intros x. rewrite append_assoc.
      destruct (whitespace_char cp (s +:+ x) Hcp) as (Ec' & _ & _).
      rewrite Ec', Ec, IH3. reflexivity.
Qed.

Lemma split_chars_app (current : string) (n : nat) (a b : string) :
  head_continuation b = false ->
  split_chars current n (a +:+ b) = (split_chars current n a ++ chars b)%list.
Proof.
  intros Hb. revert current n. induction a as [|c a IH]; intros current n.
  - rewrite append_nil. destruct b as [|d t]; [now destruct n|].
    cbn in Hb. destruct n as [|n]; cbn [split_chars chars app]; [reflexivity|].
    now rewrite Hb.
  - rewrite append_cons. destruct n as [|n]; cbn [split_chars app].
    + now rewrite IH.
    + destruct (is_continuation c); now rewrite IH.
Qed.

Lemma chars_app (a b : string) :
  head_continuation b = false -> chars (a +:+ b) = (chars a ++ chars b)%list.
Proof.
  intros Hb. destruct a as [|c a]; [reflexivity|].
  rewrite append_cons. unfold chars at 1 2. now apply split_chars_app.
Qed.

(** A text of whitespace only trims to the empty text. *)
Lemma strip_blank (s : string) : blank s -> strip s = "".
Proof.
  intros (H & _ & _)%blank_chars. unfold strip.
  rewrite <- (app_nil_r (chars s)), (lstrip_chars_spaces _ [] H). reflexivity.
Qed.

(** Whitespace around a text does not show after trimming. *)
Lemma strip_padding (l s r : string) :
  blank l -> blank r -> strip (l +:+ s +:+ r) = strip s.
Proof.
  intros (Hl & _ & Happ)%blank_chars (Hr & Hh & _)%blank_chars.
  unfold strip. rewrite Happ, (chars_app s r Hh).
  now rewrite strip_chars_padding.
Qed.

Ltac split_bytes :=
  repeat (match goal with
          | |- context [N.ltb ?a ?b] => destruct (N.ltb_spec a b)
          | |- context [N.leb ?a ?b] => destruct (N.leb_spec a b)
          end; cbn [andb orb negb Nat.eqb]);
  try discriminate.

Lemma div_64 (q r : N) : (r < 64 -> (q * 64 + r) / 64 = q)%N.
Proof. intros H. symmetry. apply (N.div_unique _ 64 q r); lia. Qed.

Lemma mod_64 (q r : N) : (r < 64 -> (q * 64 + r) mod 64 = r)%N.
Proof. intros H. symmetry. apply (N.mod_unique _ 64 q r); lia. Qed.

Ltac sixty_fours :=
  change 4096%N with (64 * 64)%N; change 262144%N with (64 * 64 * 64)%N;
  rewrite <- ?N.Div0.div_div;
  rewrite ?div_64, ?mod_64 by lia.

(** The code point of a character determines its bytes. *)
Lemma codepoint_utf8 (g : string) (cp : N) :
  codepoint g = Some cp -> utf8 cp = g.
Proof.
  destruct g as [|c0 [|c1 [|c2 [|c3 [|c4 g]]]]]; cbn [codepoint]; try discriminate;
    unfold continuation_bits, is_continuation, followers.
  - split_bytes. intros [= <-]. unfold utf8.
    rewrite (proj2 (N.ltb_lt _ _) H). now rewrite ascii_N_embedding.
  - split_bytes. intros [= <-]. unfold utf8.
    rewrite (proj2 (N.ltb_ge _ 128)) by lia. rewrite (proj2 (N.ltb_lt _ 2048)) by lia.
    sixty_fours.
    rewrite <- (ascii_N_embedding c0) at 2. rewrite <- (ascii_N_embedding c1) at 2.
    repeat f_equal; lia.
  - split_bytes. intros [= <-]. unfold utf8.
    rewrite (proj2 (N.ltb_ge _ 128)) by lia. rewrite (proj2 (N.ltb_ge _ 2048)) by lia.
    rewrite (proj2 (N.ltb_lt _ 65536)) by lia.
    sixty_fours.
    rewrite <- (ascii_N_embedding c0) at 2. rewrite <- (ascii_N_embedding c1) at 2.
    rewrite <- (ascii_N_embedding c2) at 2.
    repeat f_equal; lia.
  - split_bytes. intros [= <-]. unfold utf8.
    rewrite (proj2 (N.ltb_ge _ 128)) by lia. rewrite (proj2 (N.ltb_ge _ 2048)) by lia.
    rewrite (proj2 (N.ltb_ge _ 65536)) by lia.
    sixty_fours.
    rewrite <- (ascii_N_embedding c0) at 2. rewrite <- (ascii_N_embedding c1) at 2.
    rewrite <- (ascii_N_embedding c2) at 2. rewrite <- (ascii_N_embedding c3) at 2.
    repeat f_equal; lia.
Qed.

Lemma isspace_whitespace (cp : N) :
  isspace cp = true -> In cp unicode_whitespace.
Proof.
  unfold isspace, unicode_whitespace. cbn [In].
  rewrite !orb_true_iff, !andb_true_iff, !N.leb_le, !N.eqb_eq. lia.
Qed.

Lemma is_space_blank (g : string) : is_space g = true -> blank g.
Proof.
  unfold is_space. destruct (codepoint g) as [cp|] eqn:E; [|discriminate].
  intros H. rewrite <- (codepoint_utf8 g cp E), <- (append_nil_r (utf8 cp)).
  constructor; [now apply isspace_whitespace | constructor].
Qed.

Lemma all_space_blank (gs : list string) : all_space gs -> blank (join gs).
Proof.
  unfold all_space. induction gs as [|g gs IH]; [constructor|].
  cbn [forallb join fold_right]. fold (join gs). intros [Hg Hgs]%andb_prop.
  destruct (codepoint g) as [cp|] eqn:E;
    [|unfold is_space in Hg; rewrite E in Hg; discriminate].
  rewrite <- (codepoint_utf8 g cp E). constructor; [|auto].
  apply isspace_whitespace. unfold is_space in Hg. now rewrite E in Hg.
Qed.

(** A text is whitespace, its trimmed form, whitespace. *)
Lemma strip_decomposition (s : string) :
  exists before after,
    s = before +:+ strip s +:+ after /\ blank before /\ blank after.
Proof.
  destruct (lstrip_chars_spaces_before (chars s)) as (pre & E1 & Hpre).
  destruct (rstrip_chars_spaces_after (lstrip_chars (chars s))) as (post & E2 & Hpost).
  exists (join pre), (join post). split; [|split; now apply all_space_blank].
  unfold strip. rewrite <- !join_app, <- E2, <- E1. symmetry. apply join_chars.
Qed.

(** The short goals are those with fewer than 5 characters once
    trimmed. *)
Lemma short_goal_iff (goal : string) : short_goal goal <-> len (strip goal) < 5.
Proof.
  split.
  - intros (before & core & after & -> & Hb & Ha & Hlen).
    rewrite strip_padding by assumption.
    pose proof (len_strip_le core). lia.
  - intros H. destruct (strip_decomposition goal) as (before & after & E & Hb & Ha).
    now exists before, (strip goal), after.
Qed.

(** The blank texts are those that trim to nothing. *)
Lemma blank_iff (s : string) : blank s <-> strip s = "".
Proof.
  split; [apply strip_blank|].
  intros H. destruct (strip_decomposition s) as (before & after & E & Hb & Ha).
  rewrite H, append_nil in E. rewrite E.
  clear E H. induction Hb as [|cp t Hcp Ht IH]; [assumption|].
  rewrite append_assoc. now constructor.
Qed.

Lemma prefix_append_iff (needle hay : string) :
  String.prefix needle hay = true <-> exists rest, hay = needle +:+ rest.
Proof.
  revert hay. induction needle as [|c needle IH]; intros hay.
  - split; [intros _; now exists hay | intros _; now destruct hay].
  - destruct hay as [|d hay]; simpl.
    + split; [discriminate | intros (rest & E); discriminate].
    + destruct (Ascii.ascii_dec c d) as [->|Hne].
      * rewrite IH. split; intros (rest & E); exists rest;
          rewrite append_cons in *; congruence.
      * split; [discriminate|].
        intros (rest & E). rewrite append_cons in E. congruence.
Qed.

(** [needle in hay] holds exactly when [hay] has [needle] as a substring. *)
Lemma contains_iff (needle hay : string) :
  contains needle hay = true
  <-> exists before after, hay = before +:+ needle +:+ after.
Proof.
  induction hay as [|d hay IH].
  - cbn [contains]. rewrite orb_false_r, prefix_append_iff. split.
    + intros (rest & E). now exists "", rest.
    + intros (before & after & E). destruct before as [|b before].
      * now exists after.
      * rewrite append_cons in E. discriminate.
  - cbn [contains]. rewrite orb_true_iff, prefix_append_iff, IH. split.
    + intros [(rest & E)|(before & after & E)].
      * now exists "", rest.
      * exists (String d before), after. rewrite append_cons. now rewrite E.
    + intros (before & after & E). destruct before as [|b before].
      * left. now exists after.
      * right. exists before, after. rewrite append_cons in E. congruence.
Qed.

Lemma lower_char_idempotent (c : ascii) : lower_char (lower_char c) = lower_char c.
Proof. destruct c as [[] [] [] [] [] [] [] []]; reflexivity. Qed.

Lemma lower_idempotent (s : string) : lower (lower s) = lower s.
Proof.
  induction s as [|c s IH]; simpl; [reflexivity|].
  now rewrite lower_char_idempotent, IH.
Qed.

(** ** Input validation *)

Lemma validate_rejects (age : Z) (income : float) (health goal : string) :
  invalid_input age income health goal ->
  exists msg, validate_user_input age income health goal = (false, msg).
Proof.
  intros H. unfold validate_user_input.
  destruct ((age <? 18) || (age >? 100)) eqn:Eage; [eauto|].
  destruct (leb income (of_int 0) || ltb (of_int 1000) income) eqn:Einc; [eauto|].
  destruct (negb (isin health ["Good"; "Average"; "Poor"])) eqn:Eh; [eauto|].
  destruct (String.eqb (strip goal) "") eqn:Eg; [eauto|].
  destruct (len (strip goal) <? 5) eqn:El; [eauto|].
  exfalso.
  apply orb_false_elim in Eage as [Ea1 Ea2].
  apply orb_false_elim in Einc as [Ei1 Ei2].
  apply negb_false_iff, isin_In in Eh.
  apply String.eqb_neq in Eg.
  apply Z.ltb_ge in El. apply Z.ltb_ge in Ea1.
  rewrite Z.gtb_ltb in Ea2. apply Z.ltb_ge in Ea2.
  unfold invalid_input in H.
  change (SFleb income (Spec.number 0)) with (leb income (of_int 0)) in H.
  change (SFltb (Spec.number 1000) income) with (ltb (of_int 1000) income) in H.
  destruct H as [H|[H|[H|[H|[H|H]]]]];
    first [lia | congruence | now apply H | idtac].
  apply short_goal_iff in H. lia.
Qed.

Lemma on_submit_rejected llm (age : Z) (income : float) (health goal msg : string)
    (w : world) :
  validate_user_input age income health goal = (false, msg) ->
  App.on_submit llm age income health goal w = (Ok (App.ValidationError msg), w).
Proof. intros H. unfold App.on_submit. now rewrite H. Qed.

(** An accepted submit asks for the catalog exactly once. *)
Lemma on_submit_accepted llm (age : Z) (income : float) (health goal msg : string)
    (w : world) :
  validate_user_input age income health goal = (true, msg) ->
  catalog_requests (snd (App.on_submit llm age income health goal w))
  = S (catalog_requests w).
Proof.
  intros H. unfold App.on_submit. rewrite H. simpl.
  unfold Agent.get_policy_recommendation_with_ai,
    get_policy_recommendations_enhanced, load_clean_data.
  destruct (empty _); reflexivity.
Qed.

(** Texts of whitespace, given by their code points. *)
Lemma blank_utf8 (cps : list N) :
  forallb (fun cp => existsb (N.eqb cp) unicode_whitespace) cps = true ->
  blank (join (map utf8 cps)).
Proof.
  induction cps as [|cp cps IH]; [constructor|].
  cbn [forallb map join fold_right]. fold (join (map utf8 cps)).
  intros [Hcp Hcps]%andb_prop. constructor; [|auto].
  apply existsb_exists in Hcp as (x & Hx & E). apply N.eqb_eq in E. now subst.
Qed.

(** C8 as stated fails: the recommender itself checks nothing. Called
    with an age of 15, an income of 0, the health "Excellent" and an
    empty goal it asks for the catalog first, and then reports the data
    error when there is no file and raises the type error of its scorer
    call when the catalog has a row; it never rejects the input. *)
Lemma recommender_does_not_validate :
  invalid_input 15 (of_int 0) "Excellent" ""
  /\ get_policy_recommendations_enhanced 15 (of_int 0) "Excellent" ""
       {| csv := None; catalog_requests := 0 |}
     = (Ok (Error unable_to_load), {| csv := None; catalog_requests := 1 |})
  /\ get_policy_recommendations_enhanced 15 (of_int 0) "Excellent" ""
       {| csv := Some [term_life_12]; catalog_requests := 0 |}
     = (Raise TypeError, {| csv := Some [term_life_12]; catalog_requests := 1 |}).
Proof. split; [left; lia | split; reflexivity]. Qed.

(** C8, amended. An input with age below 18 or above 100, income at most
    0 or above 1000, a health that is not Good, Average or Poor, or a goal
    that is empty or shorter than 5 characters once trimmed is rejected by
    the validator, and the submit handler of the page, which validates
    before it calls the recommender, then shows the message and leaves
    the world as it was: the catalog is not asked for. Age 15, income 0,
    health "Excellent" and an empty goal are each rejected, and so are a
    goal of four Devanagari letters and a goal of no-break spaces. *)
Theorem invalid_input_rejected_before_catalog :
  (forall llm (age : Z) (income : float) (health goal : string) (w : world),
      invalid_input age income health goal ->
      exists msg,
        validate_user_input age income health goal = (false, msg)
        /\ App.on_submit llm age income health goal w
           = (Ok (App.ValidationError msg), w))
  /\ fst (validate_user_input 15 (lit 80 10) "Good" "Family protection") = false
  /\ fst (validate_user_input 30 (of_int 0) "Good" "Family protection") = false
  /\ fst (validate_user_input 30 (lit 80 10) "Excellent" "Family protection") = false
  /\ fst (validate_user_input 30 (lit 80 10) "Good" "") = false
  /\ fst (validate_user_input 30 (lit 80 10) "Good" "बीमा") = false
  /\ fst (validate_user_input 30 (lit 80 10) "Good"
            (join (map utf8 [160; 160; 160; 160; 160; 160]%N))) = false.
Proof.
  split; [|repeat split].
  intros llm age income health goal w H.
  destruct (validate_rejects age income health goal H) as (msg & E).
  exists msg. split; [assumption | now apply on_submit_rejected].
Qed.

Lemma invalid_input_rejected_before_catalog_witness :
  exists msg,
    validate_user_input 30 (lit 80 10) "Good" "  tax " = (false, msg)
    /\ App.on_submit (fun _ _ _ _ _ _ => "") 30 (lit 80 10) "Good" "  tax "
         {| csv := Some []; catalog_requests := 0 |}
       = (Ok (App.ValidationError msg), {| csv := Some []; catalog_requests := 0 |}).
Proof.
  apply (proj1 invalid_input_rejected_before_catalog).
  unfold invalid_input. do 5 right.
  exists (join (map utf8 [32; 32]%N)), "tax", (join (map utf8 [32]%N)).
  split; [reflexivity|].
  split; [now apply blank_utf8|]. split; [now apply blank_utf8|].
  vm_compute. reflexivity.
Defined.

(** ** The health filter *)

(** What the stage does: a health that reads "poor" in any letter case
    restricts the set to Health and Comprehensive rows, Good and Average
    leave it as it is. *)
Lemma health_filter_behaviour (age_filtered : DataFrame) :
  health_based_filtering age_filtered "Poor"
  = List.filter (fun r => isin (Policy_Type r) ["Health"; "Comprehensive"]) age_filtered
  /\ health_based_filtering age_filtered "Good" = age_filtered
  /\ health_based_filtering age_filtered "Average" = age_filtered.
Proof. repeat split. Qed.

(** C2, at the input where the code departs from it: with Poor health and
    a candidate set that holds Term Life rows only the restriction leaves
    nothing, the stage returns the empty set instead of the set it was
    given, and the rest of the function reports that no policy suits. *)
Theorem poor_health_filter_has_no_fallback :
  health_based_filtering [term_life_12; term_life_25] "Poor" = []
  /\ recommend_with_risk_score [term_life_12; term_life_25] 30 (lit 80 10)
       "Poor" "retirement planning" (lit 375 100)
     = Ok (Error no_suitable_policies).
Proof. split; reflexivity. Qed.

(** ** The goal keyword filter *)

Lemma contains_mentions (keyword goal : string) :
  contains keyword (lower goal) = true <-> mentions keyword goal.
Proof. apply contains_iff. Qed.

Lemma keyword_group_reflect (k1 k2 goal : string) :
  contains k1 (lower goal) || contains k2 (lower goal) = true
  <-> mentions k1 goal \/ mentions k2 goal.
Proof. now rewrite orb_true_iff, !contains_mentions. Qed.

Lemma keyword_group_false (k1 k2 goal : string) :
  contains k1 (lower goal) || contains k2 (lower goal) = false
  <-> ~ (mentions k1 goal \/ mentions k2 goal).
Proof. rewrite <- keyword_group_reflect. now destruct (_ || _). Qed.

Lemma selects_functional (goal : string) (r1 r2 : goal_rule) :
  selects goal r1 -> selects goal r2 -> r1 = r2.
Proof. intros H1 H2. destruct H1; destruct H2; try reflexivity; contradiction. Qed.

Lemma selects_total (goal : string) : exists rule, selects goal rule.
Proof.
  destruct (contains "family" (lower goal) || contains "dependent" (lower goal)) eqn:F.
  { apply keyword_group_reflect in F. eexists. now apply select_family. }
  apply keyword_group_false in F.
  destruct (contains "critical" (lower goal) || contains "serious" (lower goal)) eqn:C.
  { apply keyword_group_reflect in C. eexists. now apply select_critical. }
  apply keyword_group_false in C.
  destruct (contains "save" (lower goal) || contains "investment" (lower goal)) eqn:S.
  { apply keyword_group_reflect in S. eexists. now apply select_savings. }
  apply keyword_group_false in S.
  eexists. now apply select_none.
Qed.

Lemma goal_filter_applies_selected (candidates : DataFrame) (goal : string)
    (rule : goal_rule) :
  selects goal rule ->
  goal_based_recommendations candidates goal = apply_rule rule candidates.
Proof.
  intros H. unfold goal_based_recommendations.
  destruct H as [F|F C|F C S|F C S].
  - apply keyword_group_reflect in F. rewrite F. simpl.
    apply filter_ext_bool. intros r. apply Z.geb_leb.
  - apply keyword_group_false in F. apply keyword_group_reflect in C.
    now rewrite F, C.
  - apply keyword_group_false in F. apply keyword_group_false in C.
    apply keyword_group_reflect in S. now rewrite F, C, S.
  - apply keyword_group_false in F. apply keyword_group_false in C.
    apply keyword_group_false in S. now rewrite F, C, S.
Qed.

(** C3 as stated fails: a goal that mentions "family" restricts to
    coverage of at least 15 lakhs, and when no candidate has that much the
    stage returns the empty set, not the set it was given. *)
Lemma goal_filter_keeps_emptying_restriction :
  goal_based_recommendations [term_life_12] "Family protection" = []
  /\ goal_based_recommendations [term_life_12] "Family protection" <> [term_life_12].
Proof. split; [reflexivity | discriminate]. Qed.

(** C3, amended. The goal keyword filter matches substrings of the goal
    text with letter case ignored, the first matching group wins: "family"
    or "dependent" requires coverage of at least 15 lakhs; otherwise
    "critical" or "serious" restricts to Health and Comprehensive;
    otherwise "save" or "investment" restricts to Term Life and
    Comprehensive; otherwise nothing is restricted. Every goal selects
    exactly one rule, a goal with both "family" and "critical" applies the
    family rule only, and the stage returns the restricted set as it is,
    also when it is empty. *)
Theorem goal_filter_first_match (candidates : DataFrame) (goal : string) :
  (exists rule, selects goal rule
     /\ goal_based_recommendations candidates goal = apply_rule rule candidates
     /\ forall rule', selects goal rule' -> rule' = rule)
  /\ (mentions "family" goal -> mentions "critical" goal ->
      goal_based_recommendations candidates goal
      = List.filter (fun r => 15 <=? Coverage_Lakhs r) candidates)
  /\ goal_based_recommendations candidates (lower goal)
     = goal_based_recommendations candidates goal.
Proof.
  split; [|split].
  - destruct (selects_total goal) as (rule & H).
    exists rule. split; [assumption|]. split.
    + now apply goal_filter_applies_selected.
    + intros rule' H'. now apply (selects_functional goal).
  - intros F _.
    apply (goal_filter_applies_selected candidates goal CoverageAtLeast15).
    apply select_family. now left.
  - unfold goal_based_recommendations. now rewrite lower_idempotent.
Qed.

Lemma goal_filter_first_match_witness :
  goal_based_recommendations [term_life_12; term_life_25; health_20]
    "Family cover with CRITICAL illness rider"
  = [term_life_25; health_20].
Proof.
  refine (eq_trans
    (proj1 (proj2 (goal_filter_first_match [term_life_12; term_life_25; health_20]
                     "Family cover with CRITICAL illness rider")) _ _) _).
  - exists "", " cover with critical illness rider". reflexivity.
  - exists "family cover with ", " illness rider". reflexivity.
  - reflexivity.
Defined.

(** ** The ranking order *)

Lemma float_ord_length (x : float) : length (float_ord x) = 3%nat.
Proof. destruct x as [[]|[]| |[] m e]; reflexivity. Qed.

Lemma rank_key_length (a : scored_row) : length (rank_key a) = 5%nat.
Proof. unfold rank_key. rewrite length_app, float_ord_length. reflexivity. Qed.

Lemma float_key_cmp_lex (a b : float) :
  float_key_cmp a b = lex_cmp (float_ord a) (float_ord b).
Proof.
  destruct a as [[]|[]| |[] ma ea], b as [[]|[]| |[] mb eb];
    try reflexivity; unfold float_key_cmp; simpl.
  - rewrite Z.compare_opp. rewrite (Z.compare_antisym ea eb).
    destruct (ea ?= eb); simpl; try reflexivity.
    change (PosDef.Pos.compare_cont Eq ma mb) with (ma ?= mb)%positive.
    destruct (ma ?= mb)%positive; reflexivity.
  - destruct (ea ?= eb); simpl; try reflexivity.
    change (PosDef.Pos.compare_cont Eq ma mb) with (ma ?= mb)%positive.
    destruct (ma ?= mb)%positive; reflexivity.
Qed.

Lemma lex_cmp_app (x1 x2 y1 y2 : list Z) :
  length x1 = length x2 ->
  lex_cmp (x1 ++ y1) (x2 ++ y2)
  = match lex_cmp x1 x2 with Eq => lex_cmp y1 y2 | c => c end.
Proof.
  revert x2. induction x1 as [|a x1 IH]; intros [|b x2] E; try discriminate.
  - reflexivity.
  - simpl. destruct (a ?= b); try reflexivity. apply IH. now injection E.
Qed.

Lemma rank_cmp_lex (a b : scored_row) :
  rank_cmp a b = lex_cmp (rank_key a) (rank_key b).
Proof.
  unfold rank_cmp, rank_key.
  rewrite lex_cmp_app by now rewrite !float_ord_length.
  rewrite float_key_cmp_lex.
  destruct (lex_cmp _ _); try reflexivity. simpl.
  destruct (age_diff a ?= age_diff b); try reflexivity.
  rewrite Z.compare_opp.
  destruct (Coverage_Lakhs (policy b) ?= Coverage_Lakhs (policy a)); reflexivity.
Qed.

Lemma lex_cmp_antisym (k1 k2 : list Z) :
  lex_cmp k2 k1 = CompOpp (lex_cmp k1 k2).
Proof.
  revert k2. induction k1 as [|a k1 IH]; intros [|b k2]; try reflexivity.
  simpl. rewrite (Z.compare_antisym a b).
  destruct (a ?= b); simpl; auto.
Qed.

Lemma lex_cmp_trans (k1 k2 k3 : list Z) :
  length k1 = length k2 -> length k2 = length k3 ->
  lex_cmp k1 k2 <> Gt -> lex_cmp k2 k3 <> Gt -> lex_cmp k1 k3 <> Gt.
Proof.
  revert k2 k3. induction k1 as [|a k1 IH]; intros [|b k2] [|c k3] E1 E2;
    try discriminate; simpl; try congruence.
  simpl in E1, E2.
  destruct (Z.compare_spec a b), (Z.compare_spec b c), (Z.compare_spec a c);
    try congruence; try lia.
  apply IH; congruence.
Qed.





(** On scores that are numbers the column order is the order of floats. *)
Lemma float_key_cmp_numbers (x y : float) :
  is_nan x = false -> is_nan y = false ->
  (float_key_cmp x y = Lt <-> ltb x y = true)
  /\ (float_key_cmp x y = Eq <-> eqb x y = true).
Proof.
  intros Hx Hy. unfold float_key_cmp, ltb, eqb, SFltb, SFeqb. rewrite Hx, Hy.
  destruct x as [[]|[]| |[] mx ex], y as [[]|[]| |[] my ey]; try discriminate;
    simpl; try (split; split; congruence);
    (destruct (ex ?= ey); [destruct (Pos.compare_cont Eq mx my)| |]);
    simpl; split; split; congruence.
Qed.

(** ** Sorting *)

Lemma insert_row_perm (x : scored_row) (l : list scored_row) :
  Permutation (x :: l) (insert_row x l).
Proof.
  induction l as [|y l IH]; simpl; [reflexivity|].
  destruct (rank_le x y); [reflexivity|].
  rewrite perm_swap. now apply perm_skip.
Qed.

Lemma sort_values_perm (l : list scored_row) : Permutation l (sort_values l).
Proof.
  induction l as [|x l IH]; simpl; [reflexivity|].
  rewrite <- insert_row_perm. now apply perm_skip.
Qed.




Lemma ranked_candidates_length (age : Z) (income : float) (candidates : DataFrame) :
  length (ranked_candidates age income candidates) = length candidates.
Proof.
  unfold ranked_candidates.
  rewrite <- (Permutation_length (sort_values_perm _)). apply length_map.
Qed.

Lemma ranked_candidates_head (age : Z) (income : float) (candidates : DataFrame) :
  candidates <> [] ->
  exists best rest, ranked_candidates age income candidates = best :: rest.
Proof.
  intros Hne.
  destruct (ranked_candidates age income candidates) as [|best rest] eqn:E.
  - apply (f_equal (@length _)) in E. rewrite ranked_candidates_length in E.
    destruct candidates; [contradiction | discriminate].
  - eauto.
Qed.

(** What the function returns once the candidate set is known. *)
Lemma recommend_with_candidates (df : DataFrame) (age : Z) (income : float)
    (health goal : string) (rs : float) (best : scored_row) (rest : list scored_row) :
  ranked_candidates age income (candidate_set df age health goal) = best :: rest ->
  recommend_with_risk_score df age income health goal rs
  = Ok (Recommendation
          {| best_policy := best;
             top_policies := firstn 5 (best :: rest);
             risk_score := rs;
             total_available := length (candidate_set df age health goal) |}).
Proof.
  intros E. unfold recommend_with_risk_score.
  fold (candidate_set df age health goal).
  destruct (candidate_set df age health goal) as [|c cs] eqn:Ec.
  - discriminate.
  - cbn [empty]. fold (ranked_candidates age income (c :: cs)).
    rewrite E. cbn [iloc0 mbind result_bind]. now rewrite length_map.
Qed.

Lemma recommend_without_candidates (df : DataFrame) (age : Z) (income : float)
    (health goal : string) (rs : float) :
  candidate_set df age health goal = [] ->
  recommend_with_risk_score df age income health goal rs
  = Ok (Error no_suitable_policies).
Proof.
  intros E. unfold recommend_with_risk_score.
  fold (candidate_set df age health goal). now rewrite E.
Qed.

(** Within the 64-bit range the age difference of a candidate is the
    distance between its age and the age asked for. *)
Lemma int64_age_diff (age : Z) (r : row) :
  - 2 ^ 63 < Age r - age < 2 ^ 63 ->
  Int64.abs (Int64.sub (Age r) age) = Z.abs (Age r - age).
Proof.
  intros H. unfold Int64.abs, Int64.sub, Int64.wrap.
  rewrite (Z.mod_small (Age r - age + 2 ^ 63)) by lia.
  replace (Age r - age + 2 ^ 63 - 2 ^ 63) with (Age r - age) by lia.
  rewrite Z.mod_small by lia. lia.
Qed.




(** The ranking on samples: the cheaper premium first, also when its
    row is further in age, and of two rows with the same premium the one
    closer in age. *)
Example ranked_sample :
  map policy (ranked_candidates 30 (lit 100 10)
                [health_20; comprehensive_50; term_life_12])
  = [term_life_12; comprehensive_50; health_20]
  /\ map policy (ranked_candidates 30 (lit 100 10)
                   [term_life_12; health_20; health_15_age_38])
     = [health_15_age_38; term_life_12; health_20].
Proof. vm_compute. split; reflexivity. Qed.

(** ** The whole recommendation *)

(** The call that computes the risk score passes income and health in
    each other's place, and the scorer then compares the health string
    with a number: on every profile and every catalog that has a row the
    function raises before it filters anything. *)
Lemma enhanced_raises_on_loaded_catalog (age : Z) (income : float)
    (health goal : string) (w : world) (r : row) (df : DataFrame) :
  csv w = Some (r :: df) ->
  fst (get_policy_recommendations_enhanced age income health goal w)
  = Raise TypeError.
Proof.
  intros E. unfold get_policy_recommendations_enhanced, load_clean_data.
  rewrite E. cbn [empty fst].
  unfold calculate_risk_score, py_lt_int. reflexivity.
Qed.

(** With the arguments in the declared order the scorer returns a score
    for every age, health and income. *)
Lemma risk_score_in_declared_order (age : Z) (income : float) (health : string) :
  exists s, calculate_risk_score age (PyStr health) (PyFloat income) = Ok s.
Proof. eexists. apply utils_risk_score_reference. Qed.

Lemma floor_empties_candidates (df : DataFrame) (age : Z) (health goal : string) :
  List.filter (fun r => Coverage_Lakhs r >=? 10) df = [] ->
  candidate_set df age health goal = [].
Proof.
  intros Hfloor.
  assert (Hage : age_coverage_filter df age = []).
  { unfold age_coverage_filter.
    destruct (empty _) eqn:E; [assumption|].
    apply empty_false_iff in E. exfalso. apply E.
    apply filter_nil_iff. intros x Hx.
    rewrite (proj1 (filter_nil_iff _ df) Hfloor x Hx). apply andb_false_r. }
  unfold candidate_set. rewrite Hage.
  unfold health_based_filtering, goal_based_recommendations.
  destruct (String.eqb _ _); simpl;
    repeat (destruct (_ || _)); reflexivity.
Qed.

Lemma age_coverage_filter_empty_iff (df : DataFrame) (age : Z) :
  age_coverage_filter df age = []
  <-> List.filter (fun r => Coverage_Lakhs r >=? 10) df = [].
Proof.
  unfold age_coverage_filter. destruct (empty _) eqn:E; [reflexivity|].
  apply empty_false_iff in E. split; [contradiction|].
  intros Hfloor. apply filter_nil_iff. intros x Hx.
  rewrite (proj1 (filter_nil_iff _ df) Hfloor x Hx). apply andb_false_r.
Qed.

(** C1, at an input where the code departs from it. The profile (30,
    8.0, Good, "retirement planning") is valid and the catalog holds one
    Term Life row of 25 lakhs for age 32, which passes every filter: the
    function raises a type error instead of returning the shortlist of
    that row. The scorer raises because it is handed the income as health
    and the health as income; called in its declared order it returns
    1.65, and with that score the stages after the call return the row as
    best policy and only entry of the shortlist. The recommender of the
    single-file dashboard, which calls the scorer in the declared order,
    recommends the row. *)
Theorem recommend_raises_on_valid_profile :
  validate_user_input 30 (lit 80 10) "Good" "retirement planning"
  = (true, "Valid input")
  /\ get_policy_recommendations_enhanced 30 (lit 80 10) "Good" "retirement planning"
       {| csv := Some [term_life_25]; catalog_requests := 0 |}
     = (Raise TypeError, {| csv := Some [term_life_25]; catalog_requests := 1 |})
  /\ calculate_risk_score 30 (PyFloat (lit 80 10)) (PyStr "Good") = Raise TypeError
  /\ calculate_risk_score 30 (PyStr "Good") (PyFloat (lit 80 10)) = Ok (lit 165 100)
  /\ (exists best,
        recommend_with_risk_score [term_life_25] 30 (lit 80 10) "Good"
          "retirement planning" (lit 165 100)
        = Ok (Recommendation
                {| best_policy := best;
                   top_policies := [best];
                   risk_score := lit 165 100;
                   total_available := 1 |})
        /\ policy best = term_life_25)
  /\ forall basis,
      fst (InsuranceAppClean.get_policy_recommendations basis 30 (lit 80 10) "Good"
             "retirement planning"
             {| csv := Some [term_life_25]; catalog_requests := 0 |})
      = InsuranceAppClean.SimpleRecommendation
          {| InsuranceAppClean.policies := [term_life_25];
             InsuranceAppClean.simple_risk_score := lit 165 100;
             InsuranceAppClean.total_policies_found := 1;
             InsuranceAppClean.recommendation_basis := basis 30 "good" (lit 80 10) |}.
Proof.
  split; [vm_compute; reflexivity|].
  split; [reflexivity|].
  split; [reflexivity|].
  split; [vm_compute; reflexivity|].
  split; [eexists; split; [vm_compute; reflexivity | reflexivity]|].
  intros basis. unfold InsuranceAppClean.get_policy_recommendations.
  cbn [load_clean_data csv empty fst].
  replace (InsuranceAppClean.calculate_risk_score 30 "Good" (lit 80 10))
    with (lit 165 100) by (vm_compute; reflexivity).
  reflexivity.
Qed.

Lemma recommend_no_suitable_iff (df : DataFrame) (age : Z) (income : float)
    (health goal : string) (rs : float) :
  recommend_with_risk_score df age income health goal rs
  = Ok (Error no_suitable_policies)
  <-> candidate_set df age health goal = [].
Proof.
  split; [|apply recommend_without_candidates].
  intros H. destruct (candidate_set df age health goal) as [|c cs] eqn:Ec;
    [reflexivity|].
  destruct (ranked_candidates_head age income (c :: cs)) as (best & rest & E);
    [discriminate|].
  rewrite <- Ec in E.
  rewrite (recommend_with_candidates df age income health goal rs best rest E) in H.
  discriminate.
Qed.

(** The stages after the scorer call. Once a risk score is there, the
    rest of the recommendation (the filter stages and the ranking) either
    returns a non-empty shortlist of at most 5 policies whose first entry
    is [best_policy], or reports that no policy suits. It reports so whenever
    the catalog restricted to coverage of at least 10 lakhs is empty; when
    the health is not poor it reports so exactly when the rule the goal
    selects leaves none of the candidates of the age and coverage stage,
    and so, for a goal that names no keyword, only when the floored
    catalog is empty. *)
Theorem recommend_shortlist_or_no_suitable (df : DataFrame) (age : Z)
    (income : float) (health goal : string) (rs : float) :
  (recommend_with_risk_score df age income health goal rs
   = Ok (Error no_suitable_policies)
   \/ exists r,
       recommend_with_risk_score df age income health goal rs
       = Ok (Recommendation r)
       /\ top_policies r <> []
       /\ (length (top_policies r) <= 5)%nat
       /\ hd_error (top_policies r) = Some (best_policy r)
       /\ risk_score r = rs)
  /\ (List.filter (fun r => Coverage_Lakhs r >=? 10) df = [] ->
      recommend_with_risk_score df age income health goal rs
      = Ok (Error no_suitable_policies))
  /\ (lower health <> "poor" ->
      forall rule, selects goal rule ->
        (recommend_with_risk_score df age income health goal rs
         = Ok (Error no_suitable_policies)
         <-> apply_rule rule (age_coverage_filter df age) = [])
        /\ (rule = NoRestriction ->
            (recommend_with_risk_score df age income health goal rs
             = Ok (Error no_suitable_policies)
             <-> List.filter (fun r => Coverage_Lakhs r >=? 10) df = []))).
Proof.
  split; [|split].
  - destruct (candidate_set df age health goal) as [|c cs] eqn:Ec.
    + left. now apply recommend_without_candidates.
    + right.
      destruct (ranked_candidates_head age income (c :: cs)) as (best & rest & E);
        [discriminate|].
      rewrite <- Ec in E.
      eexists. split;
        [exact (recommend_with_candidates df age income health goal rs best rest E)|].
      cbn [top_policies best_policy risk_score firstn hd_error].
      repeat split; try discriminate.
      cbn [length]. rewrite length_firstn. lia.
  - intros Hfloor. apply recommend_without_candidates.
    now apply floor_empties_candidates.
  - intros Hh rule Hg.
    assert (Hc : candidate_set df age health goal
                 = apply_rule rule (age_coverage_filter df age)).
    { unfold candidate_set, health_based_filtering.
      apply String.eqb_neq in Hh. rewrite Hh.
      now apply goal_filter_applies_selected. }
    rewrite recommend_no_suitable_iff, Hc. split; [reflexivity|].
    intros ->. simpl. apply age_coverage_filter_empty_iff.
Qed.

(** * Further properties of the code *)

(** ** The validator *)

(** The validator accepts exactly the profiles with an age from 18 to
    100, an income that is neither at most 0 nor above 1000, one of the
    three health values and a goal of at least 5 characters once trimmed,
    and then answers "Valid input". Both income tests are false for an
    income that is not a number, so such an income is accepted.
    It rejects exactly the inputs the specification calls invalid.
    Characters are counted, not bytes, and the whitespace trimmed is that
    of Unicode: a goal of four Devanagari letters is too short, one of
    ten characters is accepted, and five no-break spaces are no goal. *)
Theorem validator_accepts_exactly (age : Z) (income : float) (health goal : string) :
  (validate_user_input age income health goal = (true, "Valid input")
   <-> 18 <= age <= 100
       /\ leb income (of_int 0) = false
       /\ ltb (of_int 1000) income = false
       /\ In health ["Good"; "Average"; "Poor"]
       /\ 5 <= len (strip goal))
  /\ (fst (validate_user_input age income health goal) = true
      -> snd (validate_user_input age income health goal) = "Valid input")
  /\ (18 <= age <= 100 -> In health ["Good"; "Average"; "Poor"] ->
      5 <= len (strip goal) ->
      validate_user_input age S754_nan health goal = (true, "Valid input"))
  /\ (fst (validate_user_input age income health goal) = false
      <-> invalid_input age income health goal)
  /\ validate_user_input 30 (lit 80 10) "Good" "बीमा"
     = (false, "Please provide a more detailed insurance goal (at least 5 characters).")
  /\ validate_user_input 30 (lit 80 10) "Good" "बीमा योजना" = (true, "Valid input")
  /\ validate_user_input 30 (lit 80 10) "Good"
       (join (map utf8 [160; 160; 160; 160; 160]%N))
     = (false, "Please provide your insurance goal.").
Proof.
  assert (Hiff : forall income',
    validate_user_input age income' health goal = (true, "Valid input")
    <-> 18 <= age <= 100
        /\ leb income' (of_int 0) = false
        /\ ltb (of_int 1000) income' = false
        /\ In health ["Good"; "Average"; "Poor"]
        /\ 5 <= len (strip goal)).
  { intros income'. unfold validate_user_input.
    rewrite <- isin_In.
    destruct (Z.ltb_spec age 18), (Z.gtb_spec age 100); cbn [orb];
      try (split; [discriminate | intros (? & _); lia]).
    destruct (leb income' (of_int 0)); cbn [orb];
      [split; [discriminate | intros (_ & ? & _); discriminate]|].
    destruct (ltb (of_int 1000) income'); cbn [orb];
      [split; [discriminate | intros (_ & _ & ? & _); discriminate]|].
    destruct (isin health ["Good"; "Average"; "Poor"]); cbn [negb];
      [|split; [discriminate | intros (_ & _ & _ & ? & _); discriminate]].
    destruct (String.eqb_spec (strip goal) "") as [E|E].
    { split; [discriminate|]. intros (_ & _ & _ & _ & Hl).
      rewrite E in Hl. unfold len in Hl. simpl in Hl. lia. }
    destruct (Z.ltb_spec (len (strip goal)) 5);
      [split; [discriminate | intros (_ & _ & _ & _ & ?); lia]|].
    split; [intros _; repeat split; auto; lia | reflexivity]. }
  assert (Hmsg : fst (validate_user_input age income health goal) = true
                 -> snd (validate_user_input age income health goal) = "Valid input").
  { unfold validate_user_input.
    destruct ((age <? 18) || (age >? 100)); [discriminate|].
    destruct (leb income (of_int 0) || ltb (of_int 1000) income); [discriminate|].
    destruct (negb (isin health ["Good"; "Average"; "Poor"])); [discriminate|].
    destruct (String.eqb (strip goal) ""); [discriminate|].
    destruct (len (strip goal) <? 5); [discriminate | reflexivity]. }
  split; [apply Hiff|]. split; [exact Hmsg|]. split; [|split; [|repeat split]].
  - intros Ha Hh Hg. apply Hiff. repeat split; auto; lia.
  - split.
    + intros Hf. unfold invalid_input. rewrite short_goal_iff.
      change (SFleb income (Spec.number 0)) with (leb income (of_int 0)).
      change (SFltb (Spec.number 1000) income) with (ltb (of_int 1000) income).
      destruct (Z.ltb_spec age 18); [now left|]. right.
      destruct (Z.ltb_spec 100 age); [left; lia|]. right.
      destruct (leb income (of_int 0)) eqn:E1; [now left|]. right.
      destruct (ltb (of_int 1000) income) eqn:E2; [now left|]. right.
      destruct (in_dec String.string_dec health ["Good"; "Average"; "Poor"])
        as [Hin|Hin]; [right | now left].
      destruct (Z.ltb_spec (len (strip goal)) 5); [assumption|]. exfalso.
      assert (Hv : validate_user_input age income health goal = (true, "Valid input"))
        by (apply Hiff; repeat split; auto; lia).
      rewrite Hv in Hf. discriminate.
    + intros Hinv. destruct (validate_rejects age income health goal Hinv) as (msg & E).
      now rewrite E.
Qed.

(** Whitespace around the goal never matters: a goal, its trimmed form
    and the goal with whitespace put around it get the same verdict and
    message, and a goal of whitespace only, of whatever length and of
    whichever whitespace characters of Unicode, is rejected as missing
    when the other fields are valid. *)
Theorem validator_ignores_surrounding_whitespace :
  (forall (age : Z) (income : float) (health goal : string),
      validate_user_input age income health (strip goal)
      = validate_user_input age income health goal)
  /\ (forall (age : Z) (income : float) (health goal before after : string),
         blank before -> blank after ->
         validate_user_input age income health (before +:+ goal +:+ after)
         = validate_user_input age income health goal)
  /\ (forall (age : Z) (income : float) (health goal : string),
         blank goal ->
         18 <= age <= 100 ->
         leb income (of_int 0) = false ->
         ltb (of_int 1000) income = false ->
         In health ["Good"; "Average"; "Poor"] ->
         validate_user_input age income health goal
         = (false, "Please provide your insurance goal.")).
Proof.
  split; [|split].
  - intros age income health goal. unfold validate_user_input.
    now rewrite strip_idempotent.
  - intros age income health goal before after Hb Ha.
    unfold validate_user_input. now rewrite strip_padding.
  - intros age income health goal Hb Ha Hi1 Hi2 Hh.
    unfold validate_user_input.
    apply isin_In in Hh. rewrite Hi1, Hi2, Hh, (strip_blank goal Hb).
    destruct (Z.ltb_spec age 18), (Z.gtb_spec age 100); try lia. reflexivity.
Qed.

Lemma validator_ignores_surrounding_whitespace_witness :
  validate_user_input 30 (lit 80 10) "Good" (join (map utf8 [32; 160; 9; 8195; 12288]%N))
  = (false, "Please provide your insurance goal.").
Proof.
  apply (proj2 (proj2 validator_ignores_surrounding_whitespace)).
  - now apply blank_utf8.
  - lia.
  - vm_compute. reflexivity.
  - vm_compute. reflexivity.
  - simpl. now left.
Defined.

(** ** The enhanced recommender as it runs *)

(** Whatever the profile, the enhanced recommender asks for the catalog
    once and then either reports that the data could not be loaded (no
    file, or a file without rows) or raises a type error (a catalog with
    rows): it returns no recommendation and never the no-suitable-policy
    error. *)
Theorem enhanced_recommender_outcome (age : Z) (income : float)
    (health goal : string) (w : world) :
  snd (get_policy_recommendations_enhanced age income health goal w)
  = {| csv := csv w; catalog_requests := S (catalog_requests w) |}
  /\ ((csv w = None \/ csv w = Some [])
      /\ fst (get_policy_recommendations_enhanced age income health goal w)
         = Ok (Error unable_to_load)
      \/ (exists r df, csv w = Some (r :: df))
         /\ fst (get_policy_recommendations_enhanced age income health goal w)
            = Raise TypeError).
Proof.
  unfold get_policy_recommendations_enhanced, load_clean_data.
  destruct (csv w) as [[|r df]|]; cbn [empty fst snd].
  - split; [reflexivity|]. left. auto.
  - split; [reflexivity|]. right. split; [now exists r, df | reflexivity].
  - split; [reflexivity|]. left. auto.
Qed.

(** The recommendation page never shows a recommendation: a submit ends
    with the validation message, with the data error, or with the type
    error of the recommender, and the explanation generator is not
    consulted, so the outcome is the same for any two generators. *)
Theorem page_never_recommends llm (age : Z) (income : float)
    (health goal : string) (w : world) :
  ((exists msg, fst (App.on_submit llm age income health goal w)
                = Ok (App.ValidationError msg))
   \/ fst (App.on_submit llm age income health goal w)
      = Ok (App.RecommendationError unable_to_load)
   \/ fst (App.on_submit llm age income health goal w) = Raise TypeError)
  /\ (forall llm', App.on_submit llm' age income health goal w
                   = App.on_submit llm age income health goal w)
  /\ (forall r text,
         fst (Agent.get_policy_recommendation_with_ai llm age income health goal w)
         <> Ok (Agent.AiRecommendation r text)).
Proof.
  assert (Hai : forall f,
    Agent.get_policy_recommendation_with_ai f age income health goal w
    = (match csv w with
       | Some (_ :: _) => Raise TypeError
       | _ => Ok (Agent.AiError unable_to_load)
       end,
       {| csv := csv w; catalog_requests := S (catalog_requests w) |})).
  { intros f. unfold Agent.get_policy_recommendation_with_ai,
      get_policy_recommendations_enhanced, load_clean_data.
    destruct (csv w) as [[|r df]|]; reflexivity. }
  split; [|split].
  - unfold App.on_submit.
    destruct (validate_user_input age income health goal) as [[] msg]; cbn [negb].
    + rewrite Hai. destruct (csv w) as [[|r df]|]; cbn; auto.
    + left. now exists msg.
  - intros llm'. unfold App.on_submit.
    destruct (validate_user_input age income health goal) as [[] msg]; cbn [negb];
      [|reflexivity].
    now rewrite !Hai.
  - intros r text. rewrite Hai. destruct (csv w) as [[|r' df]|]; cbn; discriminate.
Qed.

(** ** The filter stages *)

Lemma isin_two (s a b : string) : isin s [a; b] = true <-> s = a \/ s = b.
Proof. rewrite isin_In. simpl. intuition. Qed.

Lemma age_coverage_filter_in (df : DataFrame) (age : Z) (r : row) :
  In r (age_coverage_filter df age) -> In r df /\ 10 <= Coverage_Lakhs r.
Proof.
  unfold age_coverage_filter. destruct (empty _); intros H;
    apply filter_In in H as (Hin & Hb); split; try assumption.
  - rewrite Z.geb_leb in Hb. now apply Z.leb_le.
  - apply andb_prop in Hb as (_ & Hb). rewrite Z.geb_leb in Hb. now apply Z.leb_le.
Qed.

Lemma health_filter_in (candidates : DataFrame) (health : string) (r : row) :
  In r (health_based_filtering candidates health) ->
  In r candidates
  /\ (lower health = "poor" ->
      Policy_Type r = "Health" \/ Policy_Type r = "Comprehensive").
Proof.
  unfold health_based_filtering.
  destruct (String.eqb_spec (lower health) "poor") as [E|E]; intros H.
  - apply filter_In in H as (Hin & Hb). split; [assumption|].
    intros _. now apply isin_two.
  - split; [assumption | contradiction].
Qed.

Lemma candidate_set_in (df : DataFrame) (age : Z) (health goal : string) (r : row) :
  In r (candidate_set df age health goal) ->
  In r df
  /\ 10 <= Coverage_Lakhs r
  /\ (lower health = "poor" ->
      Policy_Type r = "Health" \/ Policy_Type r = "Comprehensive")
  /\ (forall rule, selects goal rule -> In r (apply_rule rule df)).
Proof.
  intros H. unfold candidate_set in H.
  assert (Hpre : In r (health_based_filtering (age_coverage_filter df age) health)).
  { destruct (selects_total goal) as (rule & Hr).
    rewrite (goal_filter_applies_selected _ goal rule Hr) in H.
    destruct rule; cbn [apply_rule] in H;
      try (apply filter_In in H as (H & _)); exact H. }
  destruct (health_filter_in _ _ _ Hpre) as (Hage & Hpoor).
  destruct (age_coverage_filter_in _ _ _ Hage) as (Hdf & Hcov).
  repeat split; try assumption.
  intros rule Hr.
  rewrite (goal_filter_applies_selected _ goal rule Hr) in H.
  destruct rule; cbn [apply_rule] in *;
    try (apply filter_In in H as (_ & Hb); apply filter_In; split; assumption).
  assumption.
Qed.

Lemma in_firstn {A : Type} (n : nat) (l : list A) (x : A) :
  In x (firstn n l) -> In x l.
Proof.
  intros H. rewrite <- (firstn_skipn n l). apply in_or_app. now left.
Qed.

Lemma shortlist_from_candidates (df : DataFrame) (age : Z) (income : float)
    (health goal : string) (rs : float) (rec : recommendation) (s : scored_row) :
  recommend_with_risk_score df age income health goal rs = Ok (Recommendation rec) ->
  In s (top_policies rec) \/ s = best_policy rec ->
  In (policy s) (candidate_set df age health goal)
  /\ s = add_scores age income (policy s).
Proof.
  intros Hrec Hs.
  destruct (candidate_set df age health goal) as [|c cs] eqn:Ec.
  { rewrite (recommend_without_candidates df age income health goal rs Ec) in Hrec.
    discriminate. }
  destruct (ranked_candidates_head age income (c :: cs)) as (best & rest & E);
    [discriminate|].
  rewrite <- Ec in E.
  rewrite (recommend_with_candidates df age income health goal rs best rest E) in Hrec.
  injection Hrec as <-. cbn [top_policies best_policy] in Hs.
  assert (Hin : In s (ranked_candidates age income (candidate_set df age health goal))).
  { rewrite E. destruct Hs as [Hs| ->]; [|now left].
    now apply (in_firstn 5). }
  unfold ranked_candidates in Hin.
  apply (Permutation_in _ (Permutation_sym (sort_values_perm _))) in Hin.
  apply in_map_iff in Hin as (p & <- & Hp). rewrite <- Ec. split; [exact Hp | reflexivity].
Qed.

(** Every policy the recommender puts on the shortlist, the best one
    included, is a row of the catalog with at least 10 lakhs of coverage;
    with a health that reads "poor" it is a Health or Comprehensive
    policy, and it passes the rule the goal selects (at least 15 lakhs for
    a family goal, and so on). *)
Theorem shortlist_respects_filters (df : DataFrame) (age : Z) (income : float)
    (health goal : string) (rs : float) (rec : recommendation) (s : scored_row) :
  recommend_with_risk_score df age income health goal rs = Ok (Recommendation rec) ->
  In s (top_policies rec) \/ s = best_policy rec ->
  In (policy s) df
  /\ 10 <= Coverage_Lakhs (policy s)
  /\ (lower health = "poor" ->
      Policy_Type (policy s) = "Health" \/ Policy_Type (policy s) = "Comprehensive")
  /\ (family_goal goal -> 15 <= Coverage_Lakhs (policy s))
  /\ (forall rule, selects goal rule -> In (policy s) (apply_rule rule df)).
Proof.
  intros Hrec Hs.
  destruct (shortlist_from_candidates df age income health goal rs rec s Hrec Hs)
    as (Hc & _).
  destruct (candidate_set_in df age health goal (policy s) Hc)
    as (Hdf & Hcov & Hpoor & Hrule).
  repeat split; try assumption.
  intros Hf. specialize (Hrule CoverageAtLeast15 (select_family goal Hf)).
  cbn [apply_rule] in Hrule. apply filter_In in Hrule as (_ & Hb).
  now apply Z.leb_le.
Qed.

Lemma shortlist_respects_filters_witness :
  15 <= Coverage_Lakhs term_life_25.
Proof.
  refine (proj1 (proj2 (proj2 (proj2
    (shortlist_respects_filters [term_life_12; term_life_25; health_20] 30 (lit 80 10)
       "Good" "Family protection" (lit 165 100)
       {| best_policy := add_scores 30 (lit 80 10) term_life_25;
          top_policies := [add_scores 30 (lit 80 10) term_life_25;
                           add_scores 30 (lit 80 10) health_20];
          risk_score := lit 165 100;
          total_available := 2 |}
       (add_scores 30 (lit 80 10) term_life_25) _ _)))) _).
  - vm_compute. reflexivity.
  - right. reflexivity.
  - left. exists "", " protection". reflexivity.
Defined.

Lemma age_coverage_filter_window (df : DataFrame) (age : Z) (r0 r : row) :
  In r0 df -> Z.abs (Age r0 - age) <= 10 -> 10 <= Coverage_Lakhs r0 ->
  In r (age_coverage_filter df age) -> Z.abs (Age r - age) <= 10.
Proof.
  intros Hin Hw Hc. unfold age_coverage_filter.
  set (p := fun r : row => (Age r >=? age - 10) && (Age r <=? age + 10)
                           && (Coverage_Lakhs r >=? 10)).
  assert (Hp0 : In r0 (List.filter p df)).
  { apply filter_In. split; [assumption|]. unfold p.
    rewrite <- age_window_bool, Z.geb_leb.
    apply andb_true_intro. split; now apply Z.leb_le. }
  destruct (List.filter p df) as [|x l] eqn:E; [contradiction|].
  cbn [empty]. rewrite <- E. intros Hr.
  apply filter_In in Hr as (_ & Hb). unfold p in Hb.
  apply andb_prop in Hb as (Hb & _). rewrite <- age_window_bool in Hb.
  now apply Z.leb_le.
Qed.

Lemma age_coverage_filter_fallback (df : DataFrame) (age : Z) :
  (forall r, In r df -> 10 <= Coverage_Lakhs r -> 10 < Z.abs (Age r - age)) ->
  age_coverage_filter df age = List.filter (fun r => Coverage_Lakhs r >=? 10) df.
Proof.
  intros H. unfold age_coverage_filter.
  replace (List.filter _ df) with (@nil row) at 1; [reflexivity|].
  symmetry. apply filter_nil_iff. intros r Hr.
  rewrite <- age_window_bool, Z.geb_leb.
  destruct (Z.leb_spec 10 (Coverage_Lakhs r)); [|apply andb_false_r].
  specialize (H r Hr ltac:(assumption)).
  destruct (Z.leb_spec (Z.abs (Age r - age)) 10); [lia | reflexivity].
Qed.

(** When the catalog has a row within ten years of the age with at least
    10 lakhs of coverage, every shortlisted policy, the best one included,
    targets an age within ten years: its age difference is at most 10. *)
Theorem shortlist_within_age_window (df : DataFrame) (age : Z) (income : float)
    (health goal : string) (rs : float) (rec : recommendation) (s : scored_row)
    (r0 : row) :
  In r0 df -> Z.abs (Age r0 - age) <= 10 -> 10 <= Coverage_Lakhs r0 ->
  recommend_with_risk_score df age income health goal rs = Ok (Recommendation rec) ->
  In s (top_policies rec) \/ s = best_policy rec ->
  0 <= age_diff s <= 10 /\ Z.abs (Age (policy s) - age) <= 10.
Proof.
  intros Hin Hw Hc Hrec Hs.
  destruct (shortlist_from_candidates df age income health goal rs rec s Hrec Hs)
    as (Hcand & Hscore).
  rewrite Hscore. cbn [add_scores age_diff policy].
  assert (Hage : In (policy s) (age_coverage_filter df age)).
  { unfold candidate_set in Hcand.
    destruct (selects_total goal) as (rule & Hr).
    rewrite (goal_filter_applies_selected _ goal rule Hr) in Hcand.
    assert (Hh : In (policy s)
                   (health_based_filtering (age_coverage_filter df age) health)).
    { destruct rule; cbn [apply_rule] in Hcand;
        try (apply filter_In in Hcand as (Hcand & _)); exact Hcand. }
    now apply health_filter_in in Hh as (Hh & _). }
  pose proof (age_coverage_filter_window df age r0 (policy s) Hin Hw Hc Hage).
  rewrite int64_age_diff by lia. lia.
Qed.

Lemma shortlist_within_age_window_witness :
  0 <= age_diff (add_scores 30 (lit 80 10) term_life_25) <= 10
  /\ Z.abs (Age (policy (add_scores 30 (lit 80 10) term_life_25)) - 30) <= 10.
Proof.
  refine (shortlist_within_age_window [term_life_12; term_life_25; health_20] 30
       (lit 80 10) "Good" "Family protection" (lit 165 100)
       {| best_policy := add_scores 30 (lit 80 10) term_life_25;
          top_policies := [add_scores 30 (lit 80 10) term_life_25;
                           add_scores 30 (lit 80 10) health_20];
          risk_score := lit 165 100;
          total_available := 2 |}
       (add_scores 30 (lit 80 10) term_life_25) term_life_12 _ _ _ _ _).
  - now left.
  - vm_compute. discriminate.
  - vm_compute. discriminate.
  - vm_compute. reflexivity.
  - right. reflexivity.
Defined.

(** When no row with at least 10 lakhs lies within ten years of the age,
    the age plays no part in the selection: the candidates are those of
    the whole catalog at or above the floor, so two such ages get the
    same candidates. *)
Theorem age_ignored_without_window_rows (df : DataFrame) (age1 age2 : Z)
    (health goal : string) :
  (forall r, In r df -> 10 <= Coverage_Lakhs r -> 10 < Z.abs (Age r - age1)) ->
  (forall r, In r df -> 10 <= Coverage_Lakhs r -> 10 < Z.abs (Age r - age2)) ->
  candidate_set df age1 health goal
  = goal_based_recommendations
      (health_based_filtering
         (List.filter (fun r => Coverage_Lakhs r >=? 10) df) health) goal
  /\ candidate_set df age1 health goal = candidate_set df age2 health goal.
Proof.
  intros H1 H2. unfold candidate_set.
  now rewrite (age_coverage_filter_fallback df age1 H1),
    (age_coverage_filter_fallback df age2 H2).
Qed.

Lemma age_ignored_without_window_rows_witness :
  candidate_set [term_life_12; health_20] 60 "Good" "retirement planning"
  = candidate_set [term_life_12; health_20] 90 "Good" "retirement planning".
Proof.
  refine (proj2 (age_ignored_without_window_rows [term_life_12; health_20] 60 90
                   "Good" "retirement planning" _ _)).
  - intros r [<-|[<-|[]]] _; vm_compute; reflexivity.
  - intros r [<-|[<-|[]]] _; vm_compute; reflexivity.
Defined.

(** ** The risk scorer, further *)

Lemma unknown_health_default (age : Z) (income : float) (health : pyval) :
  health <> PyStr "Good" -> health <> PyStr "Average" -> health <> PyStr "Poor" ->
  calculate_risk_score age health (PyFloat income)
  = calculate_risk_score age (PyStr "Good") (PyFloat income).
Proof.
  intros HG HA HP.
  assert (E : dict_get Utils.health_multiplier health (lit 10 10)
              = dict_get Utils.health_multiplier (PyStr "Good") (lit 10 10)).
  { destruct health as [z|f|s]; try reflexivity.
    cbn [dict_get]. rewrite !risk_health_multiplier_get.
    unfold Spec.risk_health_factor.
    destruct (String.eqb_spec s "Good"); [congruence|].
    destruct (String.eqb_spec s "Average"); [congruence|].
    destruct (String.eqb_spec s "Poor"); [congruence|]. reflexivity. }
  unfold calculate_risk_score. now rewrite E.
Qed.

(** A health the table does not know, or a value that is no string at
    all, is scored as Good: the dict lookup falls back to the factor
    1.0. *)
Theorem unknown_health_scored_as_good (age : Z) (income : float) (health : pyval) :
  health <> PyStr "Good" -> health <> PyStr "Average" -> health <> PyStr "Poor" ->
  calculate_risk_score age health (PyFloat income)
  = calculate_risk_score age (PyStr "Good") (PyFloat income).
Proof. apply unknown_health_default. Qed.

Lemma unknown_health_scored_as_good_witness :
  calculate_risk_score 60 (PyStr "Unknown") (PyFloat (lit 80 10))
  = calculate_risk_score 60 (PyStr "Good") (PyFloat (lit 80 10)).
Proof.
  apply (unknown_health_scored_as_good 60 (lit 80 10) (PyStr "Unknown")); discriminate.
Defined.

(** The two stages read the health differently. A health that spells
    "poor" in another letter case is filtered like Poor (only Health and
    Comprehensive rows stay) and yet scored like Good. *)
Theorem poor_in_other_case_filtered_not_scored (age : Z) (income : float)
    (health : string) (candidates : DataFrame) :
  lower health = "poor" -> health <> "Poor" ->
  health_based_filtering candidates health
  = List.filter (fun r => isin (Policy_Type r) ["Health"; "Comprehensive"]) candidates
  /\ health_based_filtering candidates health
     = health_based_filtering candidates "Poor"
  /\ calculate_risk_score age (PyStr health) (PyFloat income)
     = calculate_risk_score age (PyStr "Good") (PyFloat income).
Proof.
  intros Hl Hp. unfold health_based_filtering. rewrite Hl.
  repeat split.
  apply unknown_health_default; intros [= ->]; try discriminate. now apply Hp.
Qed.

Lemma poor_in_other_case_filtered_not_scored_witness :
  health_based_filtering [term_life_12; health_20] "POOR" = [health_20]
  /\ calculate_risk_score 60 (PyStr "POOR") (PyFloat (lit 80 10))
     = calculate_risk_score 60 (PyStr "Good") (PyFloat (lit 80 10)).
Proof.
  destruct (poor_in_other_case_filtered_not_scored 60 (lit 80 10) "POOR"
              [term_life_12; health_20] eq_refl ltac:(discriminate))
    as (H1 & _ & H3).
  split; [rewrite H1; reflexivity | exact H3].
Defined.

Lemma SFcompare_numbers (a b : float) (c : comparison) :
  SFcompare a b = Some c -> is_nan a = false /\ is_nan b = false.
Proof. destruct a as [| | |], b as [| | |]; simpl; try discriminate; auto. Qed.

Lemma SFcompare_lex (a b : float) :
  is_nan a = false -> is_nan b = false ->
  SFcompare a b = Some (lex_cmp (float_ord a) (float_ord b)).
Proof.
  intros Ha Hb. pose proof (float_key_cmp_lex a b) as H.
  unfold float_key_cmp in H. rewrite Ha, Hb in H.
  destruct (SFcompare a b) eqn:E; [now f_equal|].
  destruct a as [| | |], b as [| | |]; simpl in *; discriminate.
Qed.

Lemma lex_cmp_le_lt_trans (k1 k2 k3 : list Z) :
  length k1 = length k2 -> length k2 = length k3 ->
  lex_cmp k1 k2 <> Gt -> lex_cmp k2 k3 = Lt -> lex_cmp k1 k3 = Lt.
Proof.
  intros E1 E2 H12 H23.
  destruct (lex_cmp k1 k3) eqn:E13; [| reflexivity |]; exfalso.
  - assert (H : lex_cmp k3 k2 <> Gt).
    { apply (lex_cmp_trans k3 k1 k2); try congruence.
      rewrite (lex_cmp_antisym k1 k3), E13. discriminate. }
    rewrite (lex_cmp_antisym k2 k3), H23 in H. now apply H.
  - assert (H : lex_cmp k3 k2 <> Gt).
    { apply (lex_cmp_trans k3 k1 k2); try congruence.
      rewrite (lex_cmp_antisym k1 k3), E13. discriminate. }
    rewrite (lex_cmp_antisym k2 k3), H23 in H. now apply H.
Qed.

(** [a <= b] and [b < c] give [a < c] on doubles. *)
Lemma float_le_lt_trans (a b c : float) :
  leb a b = true -> ltb b c = true -> ltb a c = true.
Proof.
  unfold leb, ltb, SFleb, SFltb. intros Hab Hbc.
  destruct (SFcompare a b) as [cab|] eqn:Eab; [|discriminate].
  destruct (SFcompare b c) as [cbc|] eqn:Ebc; [|discriminate].
  destruct (SFcompare_numbers a b cab Eab) as (Ha & Hb).
  destruct (SFcompare_numbers b c cbc Ebc) as (_ & Hc).
  rewrite (SFcompare_lex a b Ha Hb) in Eab.
  rewrite (SFcompare_lex b c Hb Hc) in Ebc.
  rewrite (SFcompare_lex a c Ha Hc).
  injection Eab as <-. injection Ebc as <-.
  assert (H1 : lex_cmp (float_ord a) (float_ord b) <> Gt)
    by (destruct (lex_cmp (float_ord a) (float_ord b)); congruence).
  assert (H2 : lex_cmp (float_ord b) (float_ord c) = Lt)
    by (destruct (lex_cmp (float_ord b) (float_ord c)); congruence).
  rewrite (lex_cmp_le_lt_trans (float_ord a) (float_ord b) (float_ord c));
    rewrite ?float_ord_length; auto.
Qed.

(** A higher income never raises the score: with age and health fixed,
    [income1 <= income2] gives a score for [income2] that is at most the
    score for [income1]. *)
Theorem risk_score_antitone_in_income (age : Z) (health : string)
    (income1 income2 : float) :
  leb income1 income2 = true ->
  score_le age health income2 age health income1.
Proof.
  intros Hle.
  exists (Spec.risk_score_reference age health income2),
    (Spec.risk_score_reference age health income1).
  repeat split; try apply utils_risk_score_reference.
  pose proof (float_le_lt_trans income1 income2 (of_int 5) Hle) as H5.
  pose proof (float_le_lt_trans income1 income2 (of_int 15) Hle) as H15.
  unfold Spec.risk_score_reference, Spec.risk_product, Spec.risk_base, Spec.risk_health_factor,
    Spec.risk_income_factor.
  change (SFltb income1 (Spec.number 5)) with (ltb income1 (of_int 5)).
  change (SFltb income1 (Spec.number 15)) with (ltb income1 (of_int 15)).
  change (SFltb income2 (Spec.number 5)) with (ltb income2 (of_int 5)).
  change (SFltb income2 (Spec.number 15)) with (ltb income2 (of_int 15)).
  destruct (ltb income2 (of_int 5)); [rewrite (H5 eq_refl)|];
    [|destruct (ltb income2 (of_int 15)); [rewrite (H15 eq_refl)|]];
    split_income income1; split_age age; split_health health;
    vm_compute; reflexivity.
Qed.

Lemma risk_score_antitone_in_income_witness :
  score_le 40 "Average" (lit 200 10) 40 "Average" (lit 45 10).
Proof.
  apply (risk_score_antitone_in_income 40 "Average" (lit 45 10) (lit 200 10)).
  vm_compute. reflexivity.
Defined.

Ltac split_health_eq h :=
  destruct (String.eqb_spec h "Good") as [->|];
  [| destruct (String.eqb_spec h "Average") as [->|];
     [| destruct (String.eqb_spec h "Poor") as [->|]]].

(** The rounding of the doubles never shows beyond the last digit: the
    score is the double nearest [k / 100] for a whole number [k] of
    hundredths that is within half a hundredth of the exact product of the
    three factors (base, health and income factor, here in tenths). *)
Theorem risk_score_accuracy (age : Z) (health : string) (income : float) :
  exists k,
    calculate_risk_score age (PyStr health) (PyFloat income) = Ok (lit k 100)
    /\ Z.abs (10 * k
              - risk_base_tenths age * risk_health_tenths health
                * risk_income_tenths income) <= 5.
Proof.
  exists (hundredths_of (Spec.risk_score_reference age health income)).
  rewrite utils_risk_score_reference.
  unfold Spec.risk_score_reference, Spec.risk_product, Spec.risk_base, Spec.risk_health_factor,
    Spec.risk_income_factor, risk_base_tenths, risk_health_tenths,
    risk_income_tenths.
  destruct (age <? 25); [|destruct (age <? 35); [|destruct (age <? 50)]];
    split_health_eq health; split_income income;
    (split; [vm_compute; reflexivity | apply Z.leb_le; vm_compute; reflexivity]).
Qed.

(** ** The premium estimator, further *)

(** A policy type the rate table does not know is priced as Health, and a
    health the factor table does not know as Good: both lookups fall back
    to a default, no input is refused. *)
Theorem unknown_keys_priced_by_default (age coverage_lakhs : Z)
    (policy_type health : string) :
  ~ In policy_type ["Term Life"; "Health"; "Comprehensive"; "Accident Cover"] ->
  ~ In health ["Good"; "Average"; "Poor"] ->
  Agent.calculate_premium_estimate age coverage_lakhs policy_type health
  = Agent.calculate_premium_estimate age coverage_lakhs "Health" "Good"
  /\ (forall health',
         Agent.calculate_premium_estimate age coverage_lakhs policy_type health'
         = Agent.calculate_premium_estimate age coverage_lakhs "Health" health')
  /\ (forall policy_type',
         Agent.calculate_premium_estimate age coverage_lakhs policy_type' health
         = Agent.calculate_premium_estimate age coverage_lakhs policy_type' "Good").
Proof.
  intros Hp Hh. simpl in Hp, Hh.
  assert (Eb : Spec.premium_base_rate policy_type = Spec.premium_base_rate "Health").
  { unfold Spec.premium_base_rate.
    destruct (String.eqb_spec policy_type "Term Life"); [exfalso; intuition congruence|].
    destruct (String.eqb_spec policy_type "Health"); [exfalso; intuition congruence|].
    destruct (String.eqb_spec policy_type "Comprehensive"); [exfalso; intuition congruence|].
    destruct (String.eqb_spec policy_type "Accident Cover"); [exfalso; intuition congruence|]. reflexivity. }
  assert (Eh : Spec.premium_health_factor health = Spec.premium_health_factor "Good").
  { unfold Spec.premium_health_factor.
    destruct (String.eqb_spec health "Good"); [exfalso; intuition congruence|].
    destruct (String.eqb_spec health "Average"); [exfalso; intuition congruence|].
    destruct (String.eqb_spec health "Poor"); [exfalso; intuition congruence|]. reflexivity. }
  repeat split; intros; rewrite !premium_estimate_reference;
    unfold Spec.premium_reference; now rewrite ?Eb, ?Eh.
Qed.

Lemma unknown_keys_priced_by_default_witness :
  Agent.calculate_premium_estimate 40 20 "Whole Life" "Excellent"
  = Agent.calculate_premium_estimate 40 20 "Health" "Good".
Proof.
  apply (unknown_keys_priced_by_default 40 20 "Whole Life" "Excellent").
  - simpl. intros [H|[H|[H|[H|[]]]]]; discriminate.
  - simpl. intros [H|[H|[H|[]]]]; discriminate.
Defined.

Lemma check_range_sound (f : Z -> bool) (n : nat) (z : Z) :
  check_range f n = true -> 0 <= z <= Z.of_nat n -> f z = true.
Proof.
  unfold check_range. rewrite forallb_forall. intros H Hz. apply H.
  apply in_map_iff. exists (Z.to_nat z). split; [lia|].
  apply in_seq. lia.
Qed.

(** Every combination of table factors, on every coverage up to 100. *)
Lemma premium_exact_table :
  forallb (fun b => forallb (fun a => forallb (fun h =>
    check_range (exact_at (lit b 10) (lit a 10) (lit h 10) (b * a * h)) 100)
      [10; 13; 20]) [8; 10; 13; 17; 25]) [5; 8; 12; 3]
  = true.
Proof. vm_compute. reflexivity. Qed.

Lemma premium_amount_exact (b a h coverage_lakhs : Z) :
  In b [5; 8; 12; 3] -> In a [8; 10; 13; 17; 25] -> In h [10; 13; 20] ->
  0 <= coverage_lakhs <= 100 ->
  premium_amount coverage_lakhs (lit b 10) (lit a 10) (lit h 10)
  = Ok (coverage_lakhs * (b * a * h)).
Proof.
  intros Hb Ha Hh Hc.
  pose proof premium_exact_table as T.
  rewrite forallb_forall in T. specialize (T b Hb). cbv beta in T.
  rewrite forallb_forall in T. specialize (T a Ha). cbv beta in T.
  rewrite forallb_forall in T. specialize (T h Hh). cbv beta in T.
  pose proof (check_range_sound _ 100 coverage_lakhs T ltac:(lia)) as E.
  unfold exact_at in E.
  destruct (premium_amount coverage_lakhs (lit b 10) (lit a 10) (lit h 10));
    [|discriminate].
  apply Z.eqb_eq in E. now subst.
Qed.

Lemma premium_tenths_in (age : Z) (policy_type health : string) :
  In (premium_base_tenths policy_type) [5; 8; 12; 3]
  /\ In (premium_age_tenths age) [8; 10; 13; 17; 25]
  /\ In (premium_health_tenths health) [10; 13; 20].
Proof.
  unfold premium_base_tenths, premium_age_tenths, premium_health_tenths.
  repeat split.
  - destruct (String.eqb policy_type "Term Life"); [simpl; auto|].
    destruct (String.eqb policy_type "Comprehensive"); [simpl; auto|].
    destruct (String.eqb policy_type "Accident Cover"); simpl; auto 6.
  - destruct (age <? 25); [simpl; auto|].
    destruct (age <? 35); [simpl; auto|].
    destruct (age <? 45); [simpl; auto|].
    destruct (age <? 55); simpl; auto 6.
  - destruct (String.eqb health "Average"); [simpl; auto|].
    destruct (String.eqb health "Poor"); simpl; auto.
Qed.

Lemma premium_factors_tenths (age : Z) (policy_type health : string) :
  Spec.premium_base_rate policy_type = lit (premium_base_tenths policy_type) 10
  /\ Spec.premium_age_factor age = lit (premium_age_tenths age) 10
  /\ Spec.premium_health_factor health = lit (premium_health_tenths health) 10.
Proof.
  unfold Spec.premium_base_rate, Spec.premium_age_factor, Spec.premium_health_factor,
    premium_base_tenths, premium_age_tenths, premium_health_tenths.
  repeat split.
  - destruct (String.eqb_spec policy_type "Term Life") as [->|]; [reflexivity|].
    destruct (String.eqb_spec policy_type "Health") as [->|]; [reflexivity|].
    destruct (String.eqb_spec policy_type "Comprehensive") as [->|]; [reflexivity|].
    destruct (String.eqb_spec policy_type "Accident Cover") as [->|]; reflexivity.
  - destruct (age <? 25); [reflexivity|].
    destruct (age <? 35); [reflexivity|].
    destruct (age <? 45); [reflexivity|].
    destruct (age <? 55); reflexivity.
  - destruct (String.eqb_spec health "Good") as [->|]; [reflexivity|].
    destruct (String.eqb_spec health "Average") as [->|]; [reflexivity|].
    destruct (String.eqb_spec health "Poor") as [->|]; reflexivity.
Qed.

Lemma premium_estimate_value (age coverage_lakhs : Z) (policy_type health : string) :
  0 <= coverage_lakhs <= 100 ->
  Agent.calculate_premium_estimate age coverage_lakhs policy_type health
  = Ok {| Agent.estimated_premium :=
            coverage_lakhs * (premium_base_tenths policy_type
                              * premium_age_tenths age
                              * premium_health_tenths health);
          Agent.base_rate := lit (premium_base_tenths policy_type) 10;
          Agent.age_factor := lit (premium_age_tenths age) 10;
          Agent.health_factor := lit (premium_health_tenths health) 10 |}.
Proof.
  intros Hc. rewrite premium_estimate_reference.
  destruct (premium_tenths_in age policy_type health) as (Hb & Ha & Hh).
  destruct (premium_factors_tenths age policy_type health) as (Eb & Ea & Eh).
  pose proof (premium_amount_exact _ _ _ coverage_lakhs Hb Ha Hh Hc) as E.
  unfold Spec.premium_reference. rewrite Eb, Ea, Eh.
  unfold premium_amount in E.
  destruct (float_of_int coverage_lakhs) as [c|e]; cbn [mbind result_bind] in *;
    [|discriminate].
  now rewrite E.
Qed.

(** For every coverage from 0 to 100 lakhs the estimate is exact: the
    estimator returns, and the premium is the whole number
    [coverage * base * age * health] with the three factors taken in
    tenths, whatever the age, the policy type and the health; the rounding
    of the doubles never changes a rupee. *)
Theorem premium_estimate_exact (age coverage_lakhs : Z) (policy_type health : string) :
  0 <= coverage_lakhs <= 100 ->
  Agent.calculate_premium_estimate age coverage_lakhs policy_type health
  = Ok {| Agent.estimated_premium :=
            coverage_lakhs * (premium_base_tenths policy_type
                              * premium_age_tenths age
                              * premium_health_tenths health);
          Agent.base_rate := lit (premium_base_tenths policy_type) 10;
          Agent.age_factor := lit (premium_age_tenths age) 10;
          Agent.health_factor := lit (premium_health_tenths health) 10 |}.
Proof. apply premium_estimate_value. Qed.

Lemma premium_estimate_exact_witness :
  Agent.calculate_premium_estimate 47 25 "Comprehensive" "Average"
  = Ok {| Agent.estimated_premium := 25 * (12 * 17 * 13);
          Agent.base_rate := lit 12 10;
          Agent.age_factor := lit 17 10;
          Agent.health_factor := lit 13 10 |}.
Proof.
  apply (premium_estimate_exact 47 25 "Comprehensive" "Average"). lia.
Defined.

Lemma premium_health_tenths_severity (health : string) (n : nat) :
  severity health = Some n ->
  premium_health_tenths health
  = match n with 0%nat => 10 | 1%nat => 13 | _ => 20 end.
Proof.
  unfold severity, premium_health_tenths.
  destruct (String.eqb_spec health "Good") as [->|]; [intros [= <-]; reflexivity|].
  destruct (String.eqb_spec health "Average") as [->|]; [intros [= <-]; reflexivity|].
  destruct (String.eqb_spec health "Poor") as [->|];
    [intros [= <-]; reflexivity | discriminate].
Qed.

Lemma premium_tenths_monotone (age1 age2 : Z) (health1 health2 : string) :
  age1 <= age2 -> severity_le health1 health2 ->
  0 < premium_age_tenths age1 <= premium_age_tenths age2
  /\ 0 < premium_health_tenths health1 <= premium_health_tenths health2.
Proof.
  intros Ha (n1 & n2 & H1 & H2 & Hn). split.
  - unfold premium_age_tenths.
    destruct (Z.ltb_spec age1 25), (Z.ltb_spec age1 35), (Z.ltb_spec age1 45),
      (Z.ltb_spec age1 55), (Z.ltb_spec age2 25), (Z.ltb_spec age2 35),
      (Z.ltb_spec age2 45), (Z.ltb_spec age2 55); cbv iota; lia.
  - rewrite (premium_health_tenths_severity health1 n1 H1),
      (premium_health_tenths_severity health2 n2 H2).
    destruct n1 as [|[|n1]], n2 as [|[|n2]]; lia.
Qed.

(** On coverages up to 100 lakhs the estimate never falls when the
    coverage grows, when the age grows, or when the health moves along
    Good, Average, Poor, the policy type being the same. *)
Theorem premium_estimate_monotone (age1 age2 coverage1 coverage2 : Z)
    (policy_type health1 health2 : string) :
  0 <= coverage1 <= coverage2 -> coverage2 <= 100 ->
  age1 <= age2 -> severity_le health1 health2 ->
  exists e1 e2,
    Agent.calculate_premium_estimate age1 coverage1 policy_type health1 = Ok e1
    /\ Agent.calculate_premium_estimate age2 coverage2 policy_type health2 = Ok e2
    /\ 0 <= Agent.estimated_premium e1 <= Agent.estimated_premium e2.
Proof.
  intros Hc1 Hc2 Ha Hh.
  eexists. eexists.
  split; [apply premium_estimate_value; lia|].
  split; [apply premium_estimate_value; lia|].
  cbn [Agent.estimated_premium].
  destruct (premium_tenths_monotone age1 age2 health1 health2 Ha Hh) as (Hat & Hht).
  destruct (premium_tenths_in age1 policy_type health1) as (Hb & _).
  assert (0 < premium_base_tenths policy_type)
    by (simpl in Hb; destruct Hb as [<-|[<-|[<-|[<-|[]]]]]; lia).
  set (b := premium_base_tenths policy_type) in *.
  set (a1 := premium_age_tenths age1) in *. set (a2 := premium_age_tenths age2) in *.
  set (h1 := premium_health_tenths health1) in *.
  set (h2 := premium_health_tenths health2) in *.
  assert (0 <= b * a1 <= b * a2)
    by (split; [apply Z.mul_nonneg_nonneg; lia | apply Z.mul_le_mono_nonneg_l; lia]).
  assert (0 <= b * a1 * h1 <= b * a2 * h2)
    by (split; [apply Z.mul_nonneg_nonneg; lia | apply Z.mul_le_mono_nonneg; lia]).
  split; [apply Z.mul_nonneg_nonneg; lia | apply Z.mul_le_mono_nonneg; lia].
Qed.

Lemma premium_estimate_monotone_witness :
  exists e1 e2,
    Agent.calculate_premium_estimate 30 10 "Health" "Good" = Ok e1
    /\ Agent.calculate_premium_estimate 50 20 "Health" "Poor" = Ok e2
    /\ 0 <= Agent.estimated_premium e1 <= Agent.estimated_premium e2.
Proof.
  apply (premium_estimate_monotone 30 50 10 20 "Health" "Good" "Poor"); try lia.
  exists 0%nat, 2%nat. repeat split. lia.
Defined.

(** ** The simple recommender of the single-file dashboard *)

Lemma value_le_iff (a b : row) :
  InsuranceAppClean.value_le a b = true <-> value_precedes a b.
Proof.
  unfold InsuranceAppClean.value_le, value_precedes.
  rewrite orb_true_iff, andb_true_iff, Z.ltb_lt, Z.eqb_eq, Z.leb_le. reflexivity.
Qed.

Lemma value_le_total (a b : row) :
  InsuranceAppClean.value_le a b = false -> InsuranceAppClean.value_le b a = true.
Proof.
  intros H. apply value_le_iff. unfold value_precedes.
  assert (Hn : ~ value_precedes a b) by (rewrite <- value_le_iff; congruence).
  unfold value_precedes in Hn. lia.
Qed.

Lemma value_precedes_trans (a b c : row) :
  value_precedes a b -> value_precedes b c -> value_precedes a c.
Proof. unfold value_precedes. lia. Qed.

Lemma insert_policy_perm (x : row) (l : list row) :
  Permutation (x :: l) (InsuranceAppClean.insert_policy x l).
Proof.
  induction l as [|y l IH]; simpl; [reflexivity|].
  destruct (InsuranceAppClean.value_le x y); [reflexivity|].
  rewrite perm_swap. now apply perm_skip.
Qed.

Lemma sort_by_value_perm (l : list row) :
  Permutation l (InsuranceAppClean.sort_by_value l).
Proof.
  induction l as [|x l IH]; simpl; [reflexivity|].
  rewrite <- insert_policy_perm. now apply perm_skip.
Qed.

Lemma insert_policy_sorted (x : row) (l : list row) :
  StronglySorted value_precedes l ->
  StronglySorted value_precedes (InsuranceAppClean.insert_policy x l).
Proof.
  induction 1 as [|y l Hs IH Hy]; simpl.
  - constructor; constructor.
  - destruct (InsuranceAppClean.value_le x y) eqn:E.
    + apply value_le_iff in E.
      constructor; [now constructor|].
      constructor; [exact E|].
      eapply List.Forall_impl; [|exact Hy].
      intros z Hz. now apply (value_precedes_trans x y z).
    + constructor; [exact IH|].
      apply (Permutation_Forall (insert_policy_perm x l)).
      constructor; [apply value_le_iff; now apply value_le_total | exact Hy].
Qed.

Lemma sort_by_value_sorted (l : list row) :
  StronglySorted value_precedes (InsuranceAppClean.sort_by_value l).
Proof.
  induction l as [|x l IH]; simpl; [constructor | now apply insert_policy_sorted].
Qed.

Lemma StronglySorted_firstn {A : Type} (R : A -> A -> Prop) (n : nat) (l : list A) :
  StronglySorted R l -> StronglySorted R (firstn n l).
Proof.
  intros H. revert n. induction H as [|x l Hs IH Hx]; intros [|n]; simpl;
    try constructor.
  - apply IH.
  - apply List.Forall_forall. intros y Hy. apply in_firstn in Hy.
    rewrite List.Forall_forall in Hx. now apply Hx.
Qed.

(** The function in terms of the rows it found. *)
Lemma simple_recommender_unfold basis (age : Z) (income : float)
    (health goal : string) (w : world) (r0 : row) (df : DataFrame) :
  csv w = Some (r0 :: df) ->
  fst (InsuranceAppClean.get_policy_recommendations basis age income health goal w)
  = match simple_found (r0 :: df) age health with
    | [] => InsuranceAppClean.SimpleError InsuranceAppClean.no_suitable_policies_simple
    | found =>
        InsuranceAppClean.SimpleRecommendation
          {| InsuranceAppClean.policies :=
               firstn 3 (InsuranceAppClean.sort_by_value found);
             InsuranceAppClean.simple_risk_score :=
               InsuranceAppClean.calculate_risk_score age health income;
             InsuranceAppClean.total_policies_found := length found;
             InsuranceAppClean.recommendation_basis := basis age (lower health) income |}
    end.
Proof.
  intros E. unfold InsuranceAppClean.get_policy_recommendations, load_clean_data.
  rewrite E. cbn [empty fst].
  unfold simple_found, simple_health_types.
  fold (simple_window (r0 :: df) age).
  assert (Hlen : forall l, length (InsuranceAppClean.sort_by_value l) = length l)
    by (intros l; symmetry; apply Permutation_length, sort_by_value_perm).
  destruct (String.eqb health "Poor"); [|destruct (String.eqb health "Good")];
    cbv zeta;
    try (destruct (List.filter _ (simple_window (r0 :: df) age)) as [|k ks];
         cbn [empty negb]);
    destruct (simple_window (r0 :: df) age) as [|x xs]; cbn [empty negb fst];
    rewrite ?Hlen; reflexivity.
Qed.

Lemma simple_found_in (df : DataFrame) (age : Z) (health : string) (p : row) :
  In p (simple_found df age health) ->
  In p df /\ Z.abs (Age p - age) <= 5.
Proof.
  assert (Hw : forall q, In q (simple_window df age) ->
                         In q df /\ Z.abs (Age q - age) <= 5).
  { intros q Hq. apply filter_In in Hq as (Hin & Hb). split; [assumption|].
    apply andb_prop in Hb as (H1 & H2). rewrite Z.geb_leb in H1.
    apply Z.leb_le in H1. apply Z.leb_le in H2. lia. }
  unfold simple_found. destruct (simple_health_types health) as [types|]; [|apply Hw].
  cbv zeta. destruct (empty _); [apply Hw|].
  intros H. apply filter_In in H as (H & _). now apply Hw.
Qed.

Lemma simple_found_empty_iff (df : DataFrame) (age : Z) (health : string) :
  simple_found df age health = [] <-> simple_window df age = [].
Proof.
  unfold simple_found. destruct (simple_health_types health) as [types|];
    [|reflexivity].
  cbv zeta. destruct (empty _) eqn:E; [reflexivity|].
  apply empty_false_iff in E. split; [contradiction|].
  intros Hw. rewrite Hw in E. now contradiction E.
Qed.

(** With a catalog that has rows, the simple recommender reports that no
    policy suits exactly when no row targets an age within five years of
    the user's; otherwise it recommends. The health rule never causes the
    error: when it leaves nothing, the rows of the age window are used. *)
Theorem simple_recommender_fails_only_on_age basis (age : Z) (income : float)
    (health goal : string) (w : world) (r0 : row) (df : DataFrame) :
  csv w = Some (r0 :: df) ->
  (fst (InsuranceAppClean.get_policy_recommendations basis age income health goal w)
   = InsuranceAppClean.SimpleError InsuranceAppClean.no_suitable_policies_simple
   <-> forall r, In r (r0 :: df) -> 5 < Z.abs (Age r - age))
  /\ ((exists r, In r (r0 :: df) /\ Z.abs (Age r - age) <= 5) ->
      exists rec,
        fst (InsuranceAppClean.get_policy_recommendations basis age income health goal w)
        = InsuranceAppClean.SimpleRecommendation rec).
Proof.
  intros E. rewrite (simple_recommender_unfold basis age income health goal w r0 df E).
  assert (Hw : simple_window (r0 :: df) age = []
               <-> forall r, In r (r0 :: df) -> 5 < Z.abs (Age r - age)).
  { unfold simple_window. rewrite filter_nil_iff. split; intros H r Hr.
    - specialize (H r Hr). rewrite Z.geb_leb in H.
      destruct (Z.leb_spec (age - 5) (Age r)), (Z.leb_spec (Age r) (age + 5));
        simpl in H; try discriminate; lia.
    - specialize (H r Hr). rewrite Z.geb_leb.
      destruct (Z.leb_spec (age - 5) (Age r)), (Z.leb_spec (Age r) (age + 5));
        simpl; try reflexivity; lia. }
  rewrite <- Hw, <- (simple_found_empty_iff (r0 :: df) age health).
  split.
  - destruct (simple_found (r0 :: df) age health); split;
      try reflexivity; discriminate.
  - intros (r & Hr & Ha).
    destruct (simple_found (r0 :: df) age health) eqn:Ef; [|eauto].
    apply simple_found_empty_iff in Ef. pose proof (proj1 Hw Ef r Hr). lia.
Qed.

Lemma simple_recommender_fails_only_on_age_witness :
  exists rec,
    fst (InsuranceAppClean.get_policy_recommendations (fun _ _ _ => "") 30
           (of_int 10) "Poor" "family"
           {| csv := Some [term_life_12; term_life_25]; catalog_requests := 0 |})
    = InsuranceAppClean.SimpleRecommendation rec.
Proof.
  refine (proj2 (simple_recommender_fails_only_on_age (fun _ _ _ => "") 30 (of_int 10)
                   "Poor" "family"
                   {| csv := Some [term_life_12; term_life_25]; catalog_requests := 0 |}
                   term_life_12 [term_life_25] eq_refl) _).
  exists term_life_12. split; [now left | vm_compute; discriminate].
Defined.

Lemma simple_recommendation_found basis (age : Z) (income : float)
    (health goal : string) (w : world) (rec : InsuranceAppClean.simple_recommendation) :
  fst (InsuranceAppClean.get_policy_recommendations basis age income health goal w)
  = InsuranceAppClean.SimpleRecommendation rec ->
  exists df,
    csv w = Some df
    /\ simple_found df age health <> []
    /\ rec = {| InsuranceAppClean.policies :=
                  firstn 3 (InsuranceAppClean.sort_by_value (simple_found df age health));
                InsuranceAppClean.simple_risk_score :=
                  InsuranceAppClean.calculate_risk_score age health income;
                InsuranceAppClean.total_policies_found :=
                  length (simple_found df age health);
                InsuranceAppClean.recommendation_basis :=
                  basis age (lower health) income |}.
Proof.
  intros H. destruct (csv w) as [[|r0 df]|] eqn:E.
  - unfold InsuranceAppClean.get_policy_recommendations, load_clean_data in H.
    rewrite E in H. discriminate.
  - rewrite (simple_recommender_unfold basis age income health goal w r0 df E) in H.
    exists (r0 :: df). split; [reflexivity|].
    destruct (simple_found (r0 :: df) age health) as [|x xs]; [discriminate|].
    split; [discriminate|]. now injection H as <-.
  - unfold InsuranceAppClean.get_policy_recommendations, load_clean_data in H.
    rewrite E in H. discriminate.
Qed.

(** What the simple recommender returns when it recommends: one to three
    policies, three when at least three rows were found; each is a row of
    the catalog that targets an age within five years; they are ordered by
    falling coverage and, on equal coverage, rising premium, and the first
    has the most coverage of all rows found; the risk score is the
    reference score of the profile (the arguments are passed in the
    declared order here). *)
Theorem simple_recommendation_shape basis (age : Z) (income : float)
    (health goal : string) (w : world) (rec : InsuranceAppClean.simple_recommendation) :
  fst (InsuranceAppClean.get_policy_recommendations basis age income health goal w)
  = InsuranceAppClean.SimpleRecommendation rec ->
  InsuranceAppClean.policies rec <> []
  /\ length (InsuranceAppClean.policies rec)
     = Nat.min 3 (InsuranceAppClean.total_policies_found rec)
  /\ StronglySorted value_precedes (InsuranceAppClean.policies rec)
  /\ InsuranceAppClean.simple_risk_score rec
     = Spec.risk_score_reference age health income
  /\ exists df best,
      csv w = Some df
      /\ hd_error (InsuranceAppClean.policies rec) = Some best
      /\ (forall p, In p (InsuranceAppClean.policies rec) ->
            In p df /\ Z.abs (Age p - age) <= 5)
      /\ (forall q, In q (simple_found df age health) ->
            Coverage_Lakhs q <= Coverage_Lakhs best).
Proof.
  intros H.
  destruct (simple_recommendation_found basis age income health goal w rec H)
    as (df & E & Hne & ->).
  cbn [InsuranceAppClean.policies InsuranceAppClean.total_policies_found
       InsuranceAppClean.simple_risk_score].
  set (found := simple_found df age health) in *.
  pose proof (sort_by_value_perm found) as Hperm.
  pose proof (sort_by_value_sorted found) as Hsorted.
  destruct (InsuranceAppClean.sort_by_value found) as [|best rest] eqn:Es.
  { apply Permutation_length in Hperm. destruct found; [contradiction|discriminate]. }
  split; [discriminate|]. split.
  { rewrite length_firstn, (Permutation_length Hperm). reflexivity. }
  split; [now apply StronglySorted_firstn|].
  split; [apply clean_risk_score_reference|].
  exists df, best. split; [exact E|]. split; [reflexivity|]. split.
  - intros p Hp. apply in_firstn in Hp.
    apply (Permutation_in _ (Permutation_sym Hperm)) in Hp.
    now apply (simple_found_in df age health).
  - intros q Hq. apply (Permutation_in _ Hperm) in Hq.
    destruct Hq as [<-|Hq]; [lia|].
    inversion Hsorted as [|? ? _ Hall]; subst.
    rewrite List.Forall_forall in Hall. specialize (Hall q Hq).
    unfold value_precedes in Hall. lia.
Qed.

Lemma simple_recommendation_shape_witness :
  StronglySorted value_precedes
    [comprehensive_50; term_life_25; health_20].
Proof.
  refine (proj1 (proj2 (proj2
    (simple_recommendation_shape (fun _ _ _ => "") 30 (of_int 10) "Good" "family"
       {| csv := Some [term_life_12; health_20; term_life_25; comprehensive_50];
          catalog_requests := 0 |}
       {| InsuranceAppClean.policies := [comprehensive_50; term_life_25; health_20];
          InsuranceAppClean.simple_risk_score := lit 165 100;
          InsuranceAppClean.total_policies_found := 4;
          InsuranceAppClean.recommendation_basis := "" |} _)))).
  vm_compute. reflexivity.
Defined.

(** The health rule of the simple recommender. Poor health keeps Health
    and Comprehensive policies; any health other than Poor and Good, the
    three known values or not, keeps Health, Term Life and Comprehensive
    ones (no Accident Cover). When a row of the age window is of a kept
    type, every recommended policy is of a kept type. *)
Theorem simple_health_rule basis (age : Z) (income : float) (health goal : string)
    (w : world) (df : DataFrame) (rec : InsuranceAppClean.simple_recommendation)
    (types : list string) :
  csv w = Some df ->
  fst (InsuranceAppClean.get_policy_recommendations basis age income health goal w)
  = InsuranceAppClean.SimpleRecommendation rec ->
  (health = "Poor" /\ types = ["Health"; "Comprehensive"])
  \/ (health <> "Poor" /\ health <> "Good"
      /\ types = ["Health"; "Term Life"; "Comprehensive"]) ->
  (exists q, In q df /\ Z.abs (Age q - age) <= 5 /\ In (Policy_Type q) types) ->
  forall p, In p (InsuranceAppClean.policies rec) -> In (Policy_Type p) types.
Proof.
  intros E H Ht (q & Hq & Hqa & Hqt) p Hp.
  destruct (simple_recommendation_found basis age income health goal w rec H)
    as (df' & E' & Hne & ->).
  rewrite E in E'. injection E' as <-.
  cbn [InsuranceAppClean.policies] in Hp.
  apply in_firstn in Hp.
  apply (Permutation_in _ (Permutation_sym (sort_by_value_perm _))) in Hp.
  assert (Hty : simple_health_types health = Some types).
  { unfold simple_health_types. destruct Ht as [(-> & ->)|(H1 & H2 & ->)].
    - reflexivity.
    - apply String.eqb_neq in H1, H2. now rewrite H1, H2. }
  unfold simple_found in Hp. rewrite Hty in Hp. cbv zeta in Hp.
  assert (Hk : In q (List.filter (fun r => isin (Policy_Type r) types)
                       (simple_window df age))).
  { apply filter_In. split.
    - apply filter_In. split; [assumption|]. rewrite Z.geb_leb.
      apply andb_true_intro. split; apply Z.leb_le; lia.
    - now apply isin_In. }
  destruct (List.filter _ (simple_window df age)) as [|k ks] eqn:Ek; [contradiction|].
  cbn [empty] in Hp. rewrite <- Ek in Hp.
  apply filter_In in Hp as (_ & Hb). now apply isin_In.
Qed.

Lemma simple_health_rule_witness :
  In (Policy_Type health_20) ["Health"; "Term Life"; "Comprehensive"].
Proof.
  refine (simple_health_rule (fun _ _ _ => "") 30 (of_int 10) "Average" "family"
       {| csv := Some [accident_5; health_20]; catalog_requests := 0 |}
       [accident_5; health_20]
       {| InsuranceAppClean.policies := [health_20];
          InsuranceAppClean.simple_risk_score := lit 248 100;
          InsuranceAppClean.total_policies_found := 1;
          InsuranceAppClean.recommendation_basis := "" |}
       ["Health"; "Term Life"; "Comprehensive"] eq_refl _ _ _ health_20 _).
  - vm_compute. reflexivity.
  - right. repeat split; discriminate.
  - exists health_20. split; [right; now left|]. split; [vm_compute; discriminate|].
    now left.
  - now left.
Defined.

(** ** The risk level of the single-file dashboard *)

(** The level shown beside the score depends on the health first: only
    Poor health is ever rated High, and only from age 35 on; Poor health
    from age 50 on is always High; a health that is neither Average nor
    Poor is always Low below age 50. The income never decides alone. *)
Theorem risk_level_by_health (age : Z) (health : string) (income : float) :
  (InsuranceAppClean.risk_level
     (InsuranceAppClean.calculate_risk_score age health income) = "High"
   -> health = "Poor" /\ 35 <= age)
  /\ (health = "Poor" -> 50 <= age ->
      InsuranceAppClean.risk_level
        (InsuranceAppClean.calculate_risk_score age health income) = "High")
  /\ (health <> "Average" -> health <> "Poor" -> age < 50 ->
      InsuranceAppClean.risk_level
        (InsuranceAppClean.calculate_risk_score age health income) = "Low").
Proof.
  rewrite clean_risk_score_reference.
  unfold Spec.risk_score_reference, Spec.risk_product, Spec.risk_base, Spec.risk_health_factor,
    Spec.risk_income_factor.
  split_age age; split_health_eq health; split_income income;
    (split; [|split]);
    first [ intros Hlevel; vm_compute in Hlevel; discriminate
          | intros Hlevel; split; [reflexivity | lia]
          | intros; vm_compute; reflexivity
          | intros; lia
          | intros; congruence ].
Qed.

Lemma risk_level_by_health_witness :
  InsuranceAppClean.risk_level
    (InsuranceAppClean.calculate_risk_score 62 "Poor" (of_int 40)) = "High".
Proof.
  apply (proj1 (proj2 (risk_level_by_health 62 "Poor" (of_int 40)))); [reflexivity | lia].
Defined.

(** ** The question answering of agent.py *)

Lemma append_not_empty (s t : string) : s <> "" -> s +:+ t <> "".
Proof. destruct s; [congruence|]. intros _. rewrite append_cons. discriminate. Qed.

(** The answer to a question is never empty, whatever the model does:
    without a model it is the unavailability notice, for a question of
    whitespace only (of whichever whitespace characters of Unicode) it is
    the request to be specific (the model is not consulted, so any two
    models give the same answer), a generated text of whitespace only is
    replaced by a fixed sentence, any other generated text is returned
    without the whitespace around it, and a failure of the model becomes
    an apology that carries its message. *)
Theorem answer_never_empty :
  (forall llm_pipeline question,
      Agent.answer_insurance_question llm_pipeline question <> "")
  /\ (forall question,
         Agent.answer_insurance_question None question = Agent.llm_unavailable)
  /\ (forall pipeline1 pipeline2 question,
         blank question ->
         Agent.answer_insurance_question (Some pipeline1) question = Agent.ask_specific
         /\ Agent.answer_insurance_question (Some pipeline2) question
            = Agent.ask_specific)
  /\ (forall pipeline question message,
         ~ blank question ->
         pipeline (Agent.question_prompt question) = Agent.Failed message ->
         Agent.answer_insurance_question (Some pipeline) question
         = Agent.trouble +:+ message)
  /\ (forall pipeline question text,
         ~ blank question ->
         pipeline (Agent.question_prompt question) = Agent.Generated text ->
         blank text ->
         Agent.answer_insurance_question (Some pipeline) question
         = Agent.be_more_specific)
  /\ (forall pipeline question text,
         ~ blank question ->
         pipeline (Agent.question_prompt question) = Agent.Generated text ->
         ~ blank text ->
         Agent.answer_insurance_question (Some pipeline) question = strip text
         /\ exists before after,
             text = before +:+ strip text +:+ after /\ blank before /\ blank after).
Proof.
  split; [|split; [|split; [|split; [|split]]]].
  - intros [pipeline|] question; unfold Agent.answer_insurance_question;
      [|discriminate].
    destruct (String.eqb (strip question) ""); [discriminate|].
    destruct (pipeline _) as [text|message].
    + destruct (String.eqb_spec (strip text) ""); [discriminate | assumption].
    + apply append_not_empty. discriminate.
  - reflexivity.
  - intros p1 p2 question E%blank_iff.
    unfold Agent.answer_insurance_question. rewrite E. split; reflexivity.
  - intros pipeline question message Hq E. unfold Agent.answer_insurance_question.
    rewrite blank_iff in Hq. apply String.eqb_neq in Hq. now rewrite Hq, E.
  - intros pipeline question text Hq E Hb. unfold Agent.answer_insurance_question.
    rewrite blank_iff in Hq. apply String.eqb_neq in Hq.
    now rewrite Hq, E, (strip_blank text Hb).
  - intros pipeline question text Hq E Hb. split; [|apply strip_decomposition].
    unfold Agent.answer_insurance_question.
    rewrite blank_iff in Hq, Hb. apply String.eqb_neq in Hq, Hb.
    now rewrite Hq, E, Hb.
Qed.

Lemma answer_never_empty_witness :
  Agent.answer_insurance_question
    (Some (fun _ => Agent.Generated (join (map utf8 [32; 160; 10]%N))))
    "What is a rider?"
  = Agent.be_more_specific
  /\ Agent.answer_insurance_question (Some (fun _ => Agent.Generated "A rider."))
       (join (map utf8 [160; 8195]%N))
     = Agent.ask_specific.
Proof.
  assert (Hq : ~ blank "What is a rider?").
  { rewrite blank_iff. vm_compute. discriminate. }
  split.
  - apply (proj1 (proj2 (proj2 (proj2 (proj2 answer_never_empty))))
             (fun _ => Agent.Generated (join (map utf8 [32; 160; 10]%N)))
             "What is a rider?" (join (map utf8 [32; 160; 10]%N)) Hq).
    + reflexivity.
    + now apply blank_utf8.
  - apply (proj1 (proj2 (proj2 answer_never_empty))
             (fun _ => Agent.Generated "A rider.")
             (fun _ => Agent.Generated "A rider.")
             (join (map utf8 [160; 8195]%N))).
    now apply blank_utf8.
Defined.

(** ** The formatting of amounts *)

Lemma check_from_sound (f : Z -> bool) (count : nat) (start z : Z) :
  check_from f start count = true ->
  start <= z < start + Z.of_nat count -> f z = true.
Proof.
  revert start. induction count as [|c IH]; intros start H Hz; [lia|].
  cbn [check_from] in H. apply andb_prop in H as (H0 & H).
  destruct (Z.eq_dec z start) as [->|Hne]; [assumption|].
  apply (IH (start + 1)); [assumption | lia].
Qed.

















Lemma tenths_table :
  check_from (tenths_ok 100000 "L") 10 990 = true
  /\ check_from (tenths_ok 10000000 "Cr") 10 990 = true.
Proof. split; vm_compute; reflexivity. Qed.

(** An amount that is a whole number of tenths of a lakh, from 1.0 up to
    99.9 lakhs, is shown exactly as that many lakhs with one decimal and
    the suffix L, and a whole number of tenths of a crore, from 1.0 up to
    99.9 crores, exactly with the suffix Cr: the division and the
    rounding to one decimal lose nothing there. *)
Theorem format_currency_exact_tenths (k : Z) :
  10 <= k < 1000 ->
  format_currency (of_int (k * 10000))
  = "₹" +:+ digits (k / 10) +:+ "." +:+ digits (k mod 10) +:+ "L"
  /\ format_currency (of_int (k * 1000000))
     = "₹" +:+ digits (k / 10) +:+ "." +:+ digits (k mod 10) +:+ "Cr".
Proof.
  intros Hk. destruct tenths_table as (TL & TC). split.
  - pose proof (check_from_sound _ _ 10 k TL ltac:(lia)) as H.
    unfold tenths_ok in H. apply String.eqb_eq in H. exact H.
  - pose proof (check_from_sound _ _ 10 k TC ltac:(lia)) as H.
    unfold tenths_ok in H. apply String.eqb_eq in H. exact H.
Qed.

Lemma format_currency_exact_tenths_witness :
  format_currency (of_int (125 * 10000)) = "₹12.5L"
  /\ format_currency (of_int (125 * 1000000)) = "₹12.5Cr".
Proof. apply (format_currency_exact_tenths 125). lia. Defined.

(** ** The ranking is stable *)

Lemma lex_cmp_eq_iff (k1 k2 : list Z) :
  length k1 = length k2 -> (lex_cmp k1 k2 = Eq <-> k1 = k2).
Proof.
  revert k2. induction k1 as [|a k1 IH]; intros [|b k2] E; try discriminate.
  - split; reflexivity.
  - simpl. destruct (Z.compare_spec a b) as [->| |].
    + rewrite IH by (simpl in E; congruence). split; congruence.
    + split; [discriminate | intros [= -> _]; lia].
    + split; [discriminate | intros [= -> _]; lia].
Qed.

Lemma same_key_ranks_before (x y : scored_row) :
  rank_key x = rank_key y -> rank_le x y = true.
Proof.
  intros E. unfold rank_le. rewrite rank_cmp_lex.
  rewrite (proj2 (lex_cmp_eq_iff (rank_key x) (rank_key y)
                    ltac:(now rewrite !rank_key_length)) E).
  reflexivity.
Qed.

Lemma insert_row_keeps_ties (same : scored_row -> bool) (x : scored_row)
    (l : list scored_row) :
  (forall a b, same a = true -> same b = true -> rank_key a = rank_key b) ->
  List.filter same (insert_row x l) = List.filter same (x :: l).
Proof.
  intros Hsame. induction l as [|y t IH]; [reflexivity|].
  cbn [insert_row]. destruct (rank_le x y) eqn:E; [reflexivity|].
  cbn [List.filter]. rewrite IH. cbn [List.filter].
  destruct (same y) eqn:Ey, (same x) eqn:Ex; try reflexivity.
  rewrite (same_key_ranks_before x y (Hsame x y Ex Ey)) in E. discriminate.
Qed.

(** Candidates that tie on all three keys (the same affordability score,
    age difference and coverage) keep the order they have in the catalog:
    for every key, the ranked list holds the candidates with that key in
    their original order. *)
Theorem ranking_is_stable (age : Z) (income : float) (candidates : DataFrame)
    (key : list Z) :
  List.filter (has_key key) (ranked_candidates age income candidates)
  = List.filter (has_key key) (map (add_scores age income) candidates).
Proof.
  assert (Hsame : forall a b, has_key key a = true -> has_key key b = true ->
                              rank_key a = rank_key b).
  { unfold has_key. intros a b Ha Hb.
    apply bool_decide_eq_true in Ha, Hb. congruence. }
  unfold ranked_candidates.
  induction (map (add_scores age income) candidates) as [|x l IH]; [reflexivity|].
  cbn [sort_values fold_right]. fold (sort_values l).
  rewrite (insert_row_keeps_ties (has_key key) x (sort_values l) Hsame).
  cbn [List.filter]. now rewrite IH.
Qed.

(** Two rows with the same premium, age difference and coverage: the one
    that comes first in the catalog is ranked first. *)
Example ranking_ties_sample :
  map (fun s => Policy_Type (policy s))
    (ranked_candidates 30 (lit 100 10)
       [{| Policy_Type := "Health"; Coverage_Lakhs := 20; Premium_INR := 9000; Age := 35 |};
        term_life_12;
        {| Policy_Type := "Comprehensive"; Coverage_Lakhs := 20; Premium_INR := 9000;
           Age := 25 |}])
  = ["Term Life"; "Health"; "Comprehensive"].
Proof. vm_compute. reflexivity. Qed.

(** ** A catalog that cannot be loaded *)

(** When the catalog file is missing, unreadable or has no rows, both
    recommenders answer every profile with the data error; neither raises
    nor reports that no policy suits. *)
Theorem missing_catalog_reported basis (age : Z) (income : float)
    (health goal : string) (w : world) :
  csv w = None \/ csv w = Some [] ->
  fst (get_policy_recommendations_enhanced age income health goal w)
  = Ok (Error unable_to_load)
  /\ fst (InsuranceAppClean.get_policy_recommendations basis age income health goal w)
     = InsuranceAppClean.SimpleError unable_to_load.
Proof.
  intros [E|E]; unfold get_policy_recommendations_enhanced,
    InsuranceAppClean.get_policy_recommendations, load_clean_data;
    rewrite E; split; reflexivity.
Qed.

Lemma missing_catalog_reported_witness :
  fst (get_policy_recommendations_enhanced 30 (lit 80 10) "Good" "Family protection"
         {| csv := None; catalog_requests := 0 |})
  = Ok (Error unable_to_load)
  /\ fst (InsuranceAppClean.get_policy_recommendations (fun _ _ _ => "") 30 (lit 80 10)
            "Good" "Family protection" {| csv := None; catalog_requests := 0 |})
     = InsuranceAppClean.SimpleError unable_to_load.
Proof.
  apply (missing_catalog_reported (fun _ _ _ => "") 30 (lit 80 10) "Good"
           "Family protection" {| csv := None; catalog_requests := 0 |}).
  now left.
Defined.
